(** * botbuilder-dialogs: ActivityPrompt and ComponentDialog

    A shallow embedding of
    [libraries/botbuilder-dialogs/src/prompts/activityPrompt.ts] and
    [libraries/botbuilder-dialogs/src/componentDialog.ts].

    JavaScript objects that the two classes mutate in place are threaded
    explicitly: a method that receives a [DialogContext] is a state
    transformer over the context's stack and turn context, a method that
    receives [(context, instance)] is a state transformer over the turn
    context that hands the instance back.  An exception is the [Throw]
    outcome of a computation; [await] is sequencing.

    The two classes are translated from their sources.  What they import
    (dialog.ts, dialogContext.ts, dialogSet.ts, dialogContainer.ts,
    stateMap.ts, prompt.ts, botbuilder-core) is not among the sources and is
    modelled from the specification, each such definition saying so.

    Left out: the user and conversation scopes (the two classes only pass
    them on), the telemetry client, [onComputeID], and the [parent] link of
    a child context.  A validator, a recognizer and the methods of a
    derived class act on the turn context (and on an inner context where
    they are handed one); the state and options they receive are values. *)

From stdpp Require Import gmap strings list fin_maps.

Set Warnings "-register-all".
Open Scope string_scope.
Open Scope list_scope.

(** ** Outcomes and the state-and-exception monad *)

Inductive Error :=
| TypeError (msg : string)          (* property access on [undefined] *)
| UnresolvedDialogId (dialogId : string)
| NoActiveDialog
| OutOfFuel
| Raised (msg : string).            (* an exception raised by user code *)

Inductive Result (A : Type) :=
| Ok (a : A)
| Throw (e : Error).
Arguments Ok {A} a.
Arguments Throw {A} e.

Definition M (S A : Type) : Type := S -> Result (A * S).

Definition ret {S A} (a : A) : M S A := fun s => Ok (a, s).

Definition bind {S A B} (m : M S A) (k : A -> M S B) : M S B :=
  fun s => match m s with
           | Ok (a, s') => k a s'
           | Throw e => Throw e
           end.

Definition throw {S A} (e : Error) : M S A := fun _ => Throw e.
Definition get {S} : M S S := fun s => Ok (s, s).
Definition put {S} (s : S) : M S unit := fun _ => Ok (tt, s).
Definition gets {S A} (f : S -> A) : M S A := fun s => Ok (f s, s).
Definition modify {S} (f : S -> S) : M S unit := fun s => Ok (tt, f s).

Notation "x <- m ;; k" := (bind m (fun x => k))
  (at level 62, m at next level, right associativity).
Notation "m ;;; k" := (bind m (fun _ => k))
  (at level 62, right associativity).

(** ** Activities and prompt options *)

(** Modelled from the spec: the activity schema of botbuilder-core is not
    among the sources.  §3 gives an activity a discriminated type (message
    or system event), §6 gives an output an input hint that tells expected
    input from informational output. *)
Inductive ActivityTypes := Message | Event | ConversationUpdate.

(** Modelled from the spec: §6, the input hint of an output. *)
Inductive InputHints := AcceptingInput | ExpectingInput | IgnoringInput.

(** Modelled from the spec: §3, an activity is a payload with a type
    discriminator; of its free-form fields the text and the input hint are
    kept. *)
Record Activity := {
  type : ActivityTypes;
  text : string;
  inputHint : option InputHints   (* [None]: typeof inputHint !== 'string' *)
}.

#[global] Instance ActivityTypes_eq_dec : EqDecision ActivityTypes.
Proof. solve_decision. Defined.

(** A prompt is [string | Partial<Activity>].  An activity object is held by
    reference: [beginDialog] writes its input hint through the reference,
    and the caller's options keep pointing at the same object. *)
Definition loc := nat.

Inductive PromptContent :=
| PText (s : string)
| PActivity (l : loc).

#[global] Instance PromptContent_eq_dec : EqDecision PromptContent.
Proof. solve_decision. Defined.

(** Modelled from the spec: prompt.ts is not among the sources.  §4.6:
    the prompt options are the initial text and an optional retry text. *)
Record PromptOptions := {
  prompt : option PromptContent;
  retryPrompt : option PromptContent
}.

(** JavaScript truthiness of [options.prompt] / [options.retryPrompt]. *)
Definition truthy (p : option PromptContent) : bool :=
  match p with
  | None => false
  | Some (PText s) => negb (String.eqb s "")
  | Some (PActivity _) => true
  end.

(** ** Values, frames and the turn context *)

(** The values a frame's private state and a turn result hold, and a frame:
    [DialogInstance] is [{id, state}] with [state] a string-keyed object.
    Modelled from the spec: §3, a frame holds a dialog identifier, private
    state and, for a composite dialog, a nested stack inside that state. *)
Inductive Value :=
| VUndefined
| VBool (b : bool)
| VString (s : string)
| VActivity (a : Activity)
| VOptions (o : PromptOptions)
| VObject (m : gmap string Value)
| VDialogState (dialogStack : option (list DialogInstance))
    (* [DialogState]; [None]: dialogStack is not an array *)
with DialogInstance :=
| Build_DialogInstance (id : string) (state : gmap string Value).

Definition id (i : DialogInstance) : string :=
  match i with Build_DialogInstance x _ => x end.
Definition state (i : DialogInstance) : gmap string Value :=
  match i with Build_DialogInstance _ m => m end.

(** Modelled from the spec: §6 output contract.  One call of
    [context.sendActivity(activityOrText, speak, inputHint)]. *)
Record Output := {
  content : PromptContent;
  speak : option string;
  hint : InputHints
}.

(** Modelled from the spec: TurnContext is botbuilder-core's.  The turn's
    activity, whether the turn has been responded to, and what was sent;
    [objects] holds the activity objects that prompts refer to. *)
Record TurnContext := {
  activity : Activity;
  responded : bool;
  sent : list Output;
  objects : gmap loc Activity
}.

(** Modelled from the spec: TurnContext is botbuilder-core's.  §6 output
    contract [sendOutput(context, content, inputHint)]; §4.6 speaks of a turn
    that "has not otherwise been responded to", so sending marks the turn as
    responded. *)
Definition sendActivity (activityOrText : PromptContent) (speak : option string)
    (inputHint : InputHints) : M TurnContext unit :=
  modify (fun c => {| activity := activity c;
                      responded := true;
                      sent := sent c ++ [{| content := activityOrText;
                                            speak := speak;
                                            hint := inputHint |}];
                      objects := objects c |}).

(** ** The dialog contract (modelled from the spec, dialog.ts is missing) *)

(** Modelled from the spec: §4.2, [reason] is normal completion or
    cancellation. *)
Inductive DialogReason := endCalled | cancelCalled.

#[global] Instance DialogReason_eq_dec : EqDecision DialogReason.
Proof. solve_decision. Defined.

(** Modelled from the spec: §3 turn outcome (waiting, complete, cancelled)
    and §4.3 the empty outcome of continuing an empty stack. *)
Inductive DialogTurnStatus := empty | waiting | complete | cancelled.

#[global] Instance DialogTurnStatus_eq_dec : EqDecision DialogTurnStatus.
Proof. solve_decision. Defined.

(** Modelled from the spec: §3, a turn outcome is a status and, when
    complete, a result value. *)
Record DialogTurnResult := {
  status : DialogTurnStatus;
  result : Value
}.

(** Modelled from the spec: [Dialog.EndOfTurn] is the waiting outcome. *)
Definition EndOfTurn : DialogTurnResult :=
  {| status := waiting; result := VUndefined |}.

(** Modelled from the spec: §4.6 names the event "consultDialog"; an event
    is its name and a value. *)
Record DialogEvent := {
  name : string;
  value : Value
}.

(** Modelled from the spec: §3 consultation result, a tagged priority
    paired with a deferred processing action. *)
Inductive DialogConsultationDesire := noInterest | canProcess | shouldProcess.

(** Modelled from the spec: §3 and §4.3.  The mutable part of a
    [DialogContext]: its stack (top of stack last, as in the array) and the
    turn context it shares with every other context of the turn. *)
Record DialogContext := {
  stack : list DialogInstance;
  context : TurnContext
}.

(** Modelled from the spec: §3 consultation result.  The action is run on
    the context it is handed. *)
Record DialogConsultation := {
  desire : DialogConsultationDesire;
  processor : M DialogContext DialogTurnResult
}.

(** §4.2: an absent consultation is equivalent to no-interest. *)
Definition interest (c : option DialogConsultation) : DialogConsultationDesire :=
  match c with
  | Some c => desire c
  | None => noInterest
  end.

(** Modelled from the spec: §4.3.  The methods of a [dc] object, as a
    dialog that is handed [dc] can call them. *)
Record DialogContextMethods := {
  dc_beginDialog : string -> Value -> M DialogContext DialogTurnResult;
  dc_continueDialog : M DialogContext DialogTurnResult;
  dc_endDialog : Value -> M DialogContext DialogTurnResult;
  dc_cancelAllDialogs : M DialogContext unit;
  dc_repromptDialog : M DialogContext unit;
  dc_consultDialog : M DialogContext (option DialogConsultation)
}.

(** Modelled from the spec: §4.2, the lifecycle and consultation contract
    every dialog variant implements.  [repromptDialog] and [endDialog] receive
    the frame itself and hand it back as they leave it. *)
Module Dialog.
Record t := {
  id : string;
  beginDialog : DialogContextMethods -> Value -> M DialogContext DialogTurnResult;
  continueDialog : DialogContextMethods -> M DialogContext DialogTurnResult;
  resumeDialog : DialogContextMethods -> DialogReason -> Value ->
                 M DialogContext DialogTurnResult;
  repromptDialog : DialogInstance -> M TurnContext DialogInstance;
  endDialog : DialogInstance -> DialogReason -> M TurnContext DialogInstance;
  consultDialog : DialogContextMethods -> M DialogContext (option DialogConsultation);
  onDialogEvent : DialogContextMethods -> DialogEvent -> M DialogContext bool
}.
End Dialog.

(** Modelled from the spec: §3, the dialog registry is a mapping from
    identifier to dialog. *)
Abbreviation DialogSet := (gmap string Dialog.t).

(** ** StateMap and DialogContext (modelled from the spec) *)

Module StateMap.
(** Modelled from the spec: stateMap.ts is missing.  §4.1 [get(key)] is the
    value or undefined, [set(key, value)] mutates the owning storage. *)
Definition get (m : gmap string Value) (key : string) : Value :=
  default VUndefined (m !! key).

(** Modelled from the spec: §4.1 [set(key, value)]. *)
Definition set (key : string) (v : Value) (m : gmap string Value) : gmap string Value :=
  <[key := v]> m.
End StateMap.

Module DC.

(** Modelled from the spec: §3, the top of the stack is the frame pushed
    last. *)
Definition activeDialog (dc : DialogContext) : option DialogInstance :=
  last (stack dc).

Definition setActiveDialog (instance : DialogInstance) (dc : DialogContext) : DialogContext :=
  {| stack := removelast (stack dc) ++ [instance]; context := context dc |}.

Definition pop (dc : DialogContext) : DialogContext :=
  {| stack := removelast (stack dc); context := context dc |}.

Definition push (instance : DialogInstance) (dc : DialogContext) : DialogContext :=
  {| stack := stack dc ++ [instance]; context := context dc |}.

(** A method that only needs [dc.context]. *)
Definition withContext {A} (m : M TurnContext A) : M DialogContext A :=
  fun dc => match m (context dc) with
            | Ok (a, c) => Ok (a, {| stack := stack dc; context := c |})
            | Throw e => Throw e
            end.

(** Modelled from the spec: dialogContext.ts is missing.  §3: the dialog
    scope [dc.state.dialog] is private to the active frame and stored inside
    it.  The spec leaves open what the scope is when no frame is active; the
    model stops with [NoActiveDialog] there. *)
Definition dialog_get (key : string) : M DialogContext Value :=
  active <- gets activeDialog ;;
  match active with
  | Some instance => ret (StateMap.get (state instance) key)
  | None => throw NoActiveDialog
  end.

(** Modelled from the spec: §3 and §4.1, [dc.state.dialog.set(key, value)]
    writes into the active frame. *)
Definition dialog_set (key : string) (v : Value) : M DialogContext unit :=
  active <- gets activeDialog ;;
  match active with
  | Some instance =>
      modify (setActiveDialog
                (Build_DialogInstance (id instance) (StateMap.set key v (state instance))))
  | None => throw NoActiveDialog
  end.

(** Modelled from the spec: §7 (a), an identifier absent from the registry
    is fatal for the turn. *)
Definition findDialog {S} (dialogs : DialogSet) (dialogId : string) : M S Dialog.t :=
  match dialogs !! dialogId with
  | Some d => ret d
  | None => throw (UnresolvedDialogId dialogId)
  end.

(** Modelled from the spec: §4.3, popping a frame calls its dialog's
    [endDialog] with the reason. *)
Definition endActiveDialog (dialogs : DialogSet) (reason : DialogReason)
  : M DialogContext unit :=
  active <- gets activeDialog ;;
  match active with
  | Some instance =>
      d <- findDialog dialogs (id instance) ;;
      withContext (Dialog.endDialog d instance reason) ;;;
      modify pop
  | None => ret tt
  end.

(** Modelled from the spec: §4.3 [endDialog(result)] pops the top frame
    (calling its [endDialog] with reason normal completion), then calls
    [resumeDialog(normal, result)] on the new top frame, or returns complete
    to the caller if the stack is now empty. *)
Definition endDialog (dialogs : DialogSet) (self : DialogContextMethods)
    (result : Value) : M DialogContext DialogTurnResult :=
  endActiveDialog dialogs endCalled ;;;
  active <- gets activeDialog ;;
  match active with
  | Some instance =>
      d <- findDialog dialogs (id instance) ;;
      Dialog.resumeDialog d self endCalled result
  | None => ret {| status := complete; result := result |}
  end.

(** Modelled from the spec: §4.3 [cancelAllDialogs()] pops every frame from
    top to bottom, calling each one's [endDialog] with reason cancelled. *)
Fixpoint cancelFrames (dialogs : DialogSet) (n : nat) : M DialogContext unit :=
  match n with
  | 0 => ret tt
  | S n => endActiveDialog dialogs cancelCalled ;;; cancelFrames dialogs n
  end.

(** Modelled from the spec: §4.3 [cancelAllDialogs()], one pop per frame
    of the stack. *)
Definition cancelAllDialogs (dialogs : DialogSet) : M DialogContext unit :=
  n <- gets (fun dc => length (stack dc)) ;;
  cancelFrames dialogs n.

(** Modelled from the spec: §4.3 [repromptDialog()] delegates to the top
    frame only. *)
Definition repromptDialog (dialogs : DialogSet) : M DialogContext unit :=
  active <- gets activeDialog ;;
  match active with
  | Some instance =>
      d <- findDialog dialogs (id instance) ;;
      instance' <- withContext (Dialog.repromptDialog d instance) ;;
      modify (setActiveDialog instance')
  | None => ret tt
  end.

(** Modelled from the spec: §4.3, the rule shared by [beginDialog] and
    [continueDialog].  A waiting result leaves the frame; a complete or
    cancelled one pops it and goes to the new top frame through
    [resumeDialog], or to the caller when the stack is empty. *)
Definition propagate (dialogs : DialogSet) (self : DialogContextMethods)
    (r : DialogTurnResult) : M DialogContext DialogTurnResult :=
  match status r with
  | waiting | empty => ret r
  | complete | cancelled =>
      modify pop ;;;
      active <- gets activeDialog ;;
      match active with
      | Some instance =>
          d <- findDialog dialogs (id instance) ;;
          Dialog.resumeDialog d self
            (if decide (status r = cancelled) then cancelCalled else endCalled)
            (result r)
      | None => ret r
      end
  end.

(** Modelled from the spec: §4.3 [beginDialog(id, options)] resolves [id]
    in the bound registry, pushes a new frame with empty dialog scope and
    calls the dialog's [beginDialog]. *)
Definition beginDialog (dialogs : DialogSet) (self : DialogContextMethods)
    (dialogId : string) (options : Value) : M DialogContext DialogTurnResult :=
  d <- findDialog dialogs dialogId ;;
  modify (push (Build_DialogInstance dialogId ∅)) ;;;
  r <- Dialog.beginDialog d self options ;;
  propagate dialogs self r.

(** Modelled from the spec: §4.3 [continueDialog()] returns an empty
    outcome on an empty stack and otherwise delegates to the top frame's
    dialog. *)
Definition continueDialog (dialogs : DialogSet) (self : DialogContextMethods)
  : M DialogContext DialogTurnResult :=
  active <- gets activeDialog ;;
  match active with
  | Some instance =>
      d <- findDialog dialogs (id instance) ;;
      r <- Dialog.continueDialog d self ;;
      propagate dialogs self r
  | None => ret {| status := empty; result := VUndefined |}
  end.

(** Modelled from the spec: §4.4, a context is consulted through its active
    frame, whose dialog consults its own inner stack when it is a component;
    an empty stack has no consultation. *)
Definition consultDialog (dialogs : DialogSet) (self : DialogContextMethods)
  : M DialogContext (option DialogConsultation) :=
  active <- gets activeDialog ;;
  match active with
  | Some instance =>
      d <- findDialog dialogs (id instance) ;;
      Dialog.consultDialog d self
  | None => ret None
  end.

(** Modelled from the spec: §4.3.  [new DialogContext(dialogs, ...)], the
    methods bound to a registry.  A dialog that is handed the context may
    call back into it without bound, so the dispatch is cut off after [fuel]
    nested calls; cancelling and re-prompting pass no context on and need
    none. *)
Fixpoint new (fuel : nat) (dialogs : DialogSet) : DialogContextMethods :=
  match fuel with
  | 0 =>
      {| dc_beginDialog := fun _ _ => throw OutOfFuel;
         dc_continueDialog := throw OutOfFuel;
         dc_endDialog := fun _ => throw OutOfFuel;
         dc_cancelAllDialogs := cancelAllDialogs dialogs;
         dc_repromptDialog := repromptDialog dialogs;
         dc_consultDialog := throw OutOfFuel |}
  | S n =>
      {| dc_beginDialog := beginDialog dialogs (new n dialogs);
         dc_continueDialog := continueDialog dialogs (new n dialogs);
         dc_endDialog := endDialog dialogs (new n dialogs);
         dc_cancelAllDialogs := cancelAllDialogs dialogs;
         dc_repromptDialog := repromptDialog dialogs;
         dc_consultDialog := consultDialog dialogs (new n dialogs) |}
  end.

End DC.

(** ** ActivityPrompt (prompts/activityPrompt.ts) *)

Module ActivityPrompt.

Definition PERSISTED_OPTIONS : string := "options".
Definition PERSISTED_STATE : string := "state".

(** Modelled from the spec: prompt.ts is missing.  §4.6 and §6: a
    recognition result is a succeeded flag, an extracted value and an
    allow-interruption flag; the validator receives
    {context, recognized, persisted state, options}.  The context is the
    state the validator runs in. *)
Record PromptRecognizerResult := {
  succeeded : bool;
  value : Value;
  allowInterruption : bool
}.

(** Modelled from the spec: §4.6, what the validator is invoked with. *)
Record PromptValidatorContext := {
  recognized : PromptRecognizerResult;
  validatorState : Value;
  options : Value
}.

(** [options.prompt] and [options.retryPrompt] of whatever the dialog scope
    holds under 'options': reading a property of undefined throws, and only
    a [PromptOptions] object has the two properties. *)
Definition properties (options : Value) : M TurnContext PromptOptions :=
  match options with
  | VOptions o => ret o
  | VUndefined => throw (TypeError "Cannot read properties of undefined")
  | _ => ret {| prompt := None; retryPrompt := None |}
  end.

(** [{...options}] for the argument of [beginDialog]. *)
Definition spread (options : Value) : PromptOptions :=
  match options with
  | VOptions o => o
  | _ => {| prompt := None; retryPrompt := None |}
  end.

Definition send (p : option PromptContent) : M TurnContext unit :=
  match p with
  | Some c => sendActivity c None ExpectingInput
  | None => ret tt
  end.

Definition onPrompt (state : Value) (options : Value) (isRetry : bool)
  : M TurnContext unit :=
  options <- properties options ;;
  if isRetry && truthy (retryPrompt options) then
    send (retryPrompt options)
  else if truthy (prompt options) then
    send (prompt options)
  else ret tt.

Definition onRecognize (state : Value) (options : Value)
  : M TurnContext PromptRecognizerResult :=
  context <- get ;;
  ret {| succeeded := true; value := VActivity (activity context);
         allowInterruption := true |}.

(** [opt.prompt.inputHint = InputHints.ExpectingInput] when the prompt is an
    object whose input hint is not a string: the write goes to the shared
    activity object. *)
Definition withInputHint (a : Activity) : Activity :=
  match inputHint a with
  | Some _ => a
  | None => {| type := type a; text := text a; inputHint := Some ExpectingInput |}
  end.

Definition ensureInputHint (p : option PromptContent) : M TurnContext unit :=
  match p with
  | Some (PActivity l) =>
      modify (fun c => {| activity := activity c;
                          responded := responded c;
                          sent := sent c;
                          objects := alter withInputHint l (objects c) |})
  | _ => ret tt
  end.

Section Methods.

(** What the class takes from outside: the methods of the base class
    [Dialog] it does not override (dialog.ts is missing), the validator
    passed to the constructor, and [this.onRecognize], which a subclass may
    override. *)
Variable super : Dialog.t.
Variable validator : PromptValidatorContext -> M TurnContext bool.
Variable this_onRecognize : Value -> Value -> M TurnContext PromptRecognizerResult.

Definition beginDialog (dc : DialogContextMethods) (options : PromptOptions)
  : M DialogContext DialogTurnResult :=
  (* Ensure prompts have input hint set *)
  let opt := options in
  DC.withContext (ensureInputHint (prompt opt)) ;;;
  DC.withContext (ensureInputHint (retryPrompt opt)) ;;;
  (* Initialize prompt state *)
  DC.dialog_set PERSISTED_OPTIONS (VOptions opt) ;;;
  DC.dialog_set PERSISTED_STATE (VObject ∅) ;;;
  (* Send initial prompt *)
  state <- DC.dialog_get PERSISTED_STATE ;;
  options <- DC.dialog_get PERSISTED_OPTIONS ;;
  DC.withContext (onPrompt state options false) ;;;
  ret EndOfTurn.

Definition continueDialog (dc : DialogContextMethods)
  : M DialogContext DialogTurnResult :=
  (* Perform base recognition *)
  state <- DC.dialog_get PERSISTED_STATE ;;
  options <- DC.dialog_get PERSISTED_OPTIONS ;;
  recognized <- DC.withContext (this_onRecognize state options) ;;
  (* Validate the return value *)
  isValid <- DC.withContext
               (validator {| recognized := recognized;
                             validatorState := state;
                             options := options |}) ;;
  (* Return recognized value or re-prompt *)
  if isValid : bool then
    dc_endDialog dc (value recognized)
  else
    context <- gets context ;;
    (if bool_decide (type (activity context) = Message) && negb (responded context)
     then DC.withContext (onPrompt state options true)
     else ret tt) ;;;
    ret EndOfTurn.

Definition onDialogEvent (dc : DialogContextMethods) (event : DialogEvent)
  : M DialogContext bool :=
  if String.eqb (name event) "consultDialog" then
    state <- DC.dialog_get PERSISTED_STATE ;;
    options <- DC.dialog_get PERSISTED_OPTIONS ;;
    recognized <- DC.withContext (this_onRecognize state options) ;;
    ret (succeeded recognized && negb (allowInterruption recognized))
  else
    Dialog.onDialogEvent super dc event.

Definition repromptDialog (instance : DialogInstance)
  : M TurnContext DialogInstance :=
  let state := state instance in
  onPrompt (StateMap.get state PERSISTED_STATE)
           (StateMap.get state PERSISTED_OPTIONS) true ;;;
  ret instance.

Definition resumeDialog (dc : DialogContextMethods) (reason : DialogReason)
    (result : Value) : M DialogContext DialogTurnResult :=
  active <- gets DC.activeDialog ;;
  match active with
  | Some instance =>
      instance <- DC.withContext (repromptDialog instance) ;;
      modify (DC.setActiveDialog instance) ;;;
      ret EndOfTurn
  | None => throw (TypeError "Cannot read properties of undefined (reading 'state')")
  end.

(** The prompt as an entry of a registry. *)
Definition dialog (dialogId : string) : Dialog.t :=
  {| Dialog.id := dialogId;
     Dialog.beginDialog := fun dc options => beginDialog dc (spread options);
     Dialog.continueDialog := continueDialog;
     Dialog.resumeDialog := resumeDialog;
     Dialog.repromptDialog := repromptDialog;
     Dialog.endDialog := Dialog.endDialog super;
     Dialog.consultDialog := Dialog.consultDialog super;
     Dialog.onDialogEvent := onDialogEvent |}.

End Methods.

(** [onComputeID()], the identifier of a prompt that was given none.
    [bindingPath] is what [this.bindingPath()] of the base class returns
    (dialog.ts is missing). *)
Definition onComputeID (bindingPath : string) : string :=
  String.append "activityPrompt[" (String.append bindingPath "]").

End ActivityPrompt.

(** ** ComponentDialog (componentDialog.ts) *)

Module ComponentDialog.

Definition PERSISTED_DIALOG_STATE : string := "dialogs".

(** The fields of a component: the registry it inherits from
    [DialogContainer] and [initialDialogId], undefined until assigned. *)
Record t := {
  dialogs : DialogSet;
  initialDialogId : option string
}.

(** Calling a method of [innerDC: DialogContext | undefined]. *)
Definition call {A} (m : M DialogContext A) : M (option DialogContext) A :=
  fun innerDC =>
    match innerDC with
    | Some dc =>
        match m dc with
        | Ok (a, dc') => Ok (a, Some dc')
        | Throw e => Throw e
        end
    | None => Throw (TypeError "Cannot read properties of undefined")
    end.

(** The protected methods a derived component may override. *)
Record Overridable := {
  onBeginDialog : t -> Value -> M (option DialogContext) DialogTurnResult;
  onConsultDialog : t -> M (option DialogContext) (option DialogConsultation);
  onContinueDialog : t -> option DialogConsultation ->
                     M (option DialogContext) DialogTurnResult;
  onEndDialog : t -> DialogInstance -> DialogReason -> M TurnContext DialogInstance;
  onRepromptDialog : t -> DialogInstance -> M TurnContext DialogInstance;
  endComponent : t -> DialogContextMethods -> Value ->
                 M DialogContext DialogTurnResult
}.

(** Modelled from the spec: dialogContainer.ts is missing.  §3: the
    registry maps identifiers to dialogs; adding a dialog enters it under
    its identifier. *)
Definition DialogContainer_addDialog (dialog : Dialog.t) (this : t) : t :=
  {| dialogs := <[Dialog.id dialog := dialog]> (dialogs this);
     initialDialogId := initialDialogId this |}.

Definition addDialog (dialog : Dialog.t) (this : t) : t :=
  let this := DialogContainer_addDialog dialog this in
  match initialDialogId this with
  | None => {| dialogs := dialogs this; initialDialogId := Some (Dialog.id dialog) |}
  | Some _ => this
  end.

(** The inner stack held in a frame's private state, and storing one there:
    the source shares the array [state.dialogStack] with the inner context,
    here what the inner context did is written back. *)
Definition innerStack (instance : DialogInstance) : list DialogInstance :=
  match state instance !! PERSISTED_DIALOG_STATE with
  | Some (VDialogState (Some dialogStack)) => dialogStack
  | _ => []
  end.

Definition setInnerStack (dialogStack : list DialogInstance) (instance : DialogInstance)
  : DialogInstance :=
  Build_DialogInstance (id instance)
    (<[PERSISTED_DIALOG_STATE := VDialogState (Some dialogStack)]> (state instance)).

(** [createInnerDC(context, instance)]: the inner context over the frame's
    persisted stack, and the frame with [state.dialogStack] made an array.
    A value that is not a [DialogState] is outside the declared type of
    [instance.state.dialogs]; the model stops there. *)
Definition createInnerDC (context : TurnContext) (instance : DialogInstance)
  : Result (DialogContext * DialogInstance) :=
  match state instance !! PERSISTED_DIALOG_STATE with
  | Some (VDialogState dialogStack) =>
      let dialogStack := default [] dialogStack in
      Ok ({| stack := dialogStack; context := context |},
          setInnerStack dialogStack instance)
  | None | Some VUndefined =>
      Throw (TypeError "Cannot read properties of undefined (reading 'dialogStack')")
  | Some _ => Throw (TypeError "instance.state.dialogs is not a DialogState")
  end.

(** Run a method of the inner context made by [createInnerDC]. *)
Definition onInner {A} (instance : DialogInstance) (m : M DialogContext A)
  : M TurnContext (A * DialogInstance) :=
  fun ctx =>
    match createInnerDC ctx instance with
    | Ok (innerDC, instance) =>
        match m innerDC with
        | Ok (a, innerDC) => Ok ((a, setInnerStack (stack innerDC) instance), context innerDC)
        | Throw e => Throw e
        end
    | Throw e => Throw e
    end.

Definition createChildContext : M DialogContext (option DialogContext) :=
  fun dc =>
    match DC.activeDialog dc with
    | Some instance =>
        match createInnerDC (context dc) instance with
        | Ok (childDC, instance) =>
            Ok (if bool_decide (0 < length (stack childDC)) then Some childDC else None,
                DC.setActiveDialog instance dc)
        | Throw e => Throw e
        end
    | None => Throw (TypeError "Cannot read properties of undefined (reading 'state')")
    end.

(** Hand [innerDC] to a protected method and keep what it did to the inner
    stack and to the turn context. *)
Definition onInnerDC {A} (innerDC : option DialogContext)
    (m : M (option DialogContext) A) : M DialogContext A :=
  fun outerDC =>
    match m innerDC with
    | Ok (a, Some innerDC) =>
        Ok (a, match DC.activeDialog outerDC with
               | Some instance =>
                   {| stack := stack (DC.setActiveDialog
                                        (setInnerStack (stack innerDC) instance) outerDC);
                      context := context innerDC |}
               | None => {| stack := stack outerDC; context := context innerDC |}
               end)
    | Ok (a, None) => Ok (a, outerDC)
    | Throw e => Throw e
    end.

(** An [innerDC] captured earlier, as it stands when it is used: the same
    object over the frame's inner stack and the turn context as they are
    now. *)
Definition captured (innerDC : option DialogContext)
  : M DialogContext (option DialogContext) :=
  fun outerDC =>
    Ok (match innerDC with
        | Some _ =>
            Some {| stack := match DC.activeDialog outerDC with
                             | Some instance => innerStack instance
                             | None => []
                             end;
                    context := context outerDC |}
        | None => None
        end, outerDC).

Section Methods.

Variable fuel : nat.          (* dispatch depth of the inner contexts *)
Variable protected : Overridable.
Variable this : t.

Definition beginDialog (outerDC : DialogContextMethods) (options : Value)
  : M DialogContext DialogTurnResult :=
  (* Start the inner dialog. *)
  innerDC <- createChildContext ;;
  turnResult <- onInnerDC innerDC (onBeginDialog protected this options) ;;
  (* Check for end of inner dialog *)
  if bool_decide (status turnResult <> waiting) then
    (* Return result to calling dialog *)
    endComponent protected this outerDC (result turnResult)
  else
    (* Just signal end of turn *)
    ret EndOfTurn.

Definition consultDialog (outerDC : DialogContextMethods)
  : M DialogContext DialogConsultation :=
  (* Consult the inner dialog. *)
  innerDC <- createChildContext ;;
  innerConsultation <- onInnerDC innerDC (onConsultDialog protected this) ;;
  ret {| desire := match innerConsultation with
                   | Some c => desire c
                   | None => canProcess
                   end;
         processor := innerDC <- captured innerDC ;;
                      onInnerDC innerDC
                        (onContinueDialog protected this innerConsultation) |}.

Definition repromptDialog (instance : DialogInstance) : M TurnContext DialogInstance :=
  (* Forward to inner dialogs *)
  r <- onInner instance (dc_repromptDialog (DC.new fuel (dialogs this))) ;;
  (* Notify component. *)
  onRepromptDialog protected this (snd r).

Definition resumeDialog (dc : DialogContextMethods) (reason : DialogReason)
    (result : Value) : M DialogContext DialogTurnResult :=
  active <- gets DC.activeDialog ;;
  match active with
  | Some instance =>
      instance <- DC.withContext (repromptDialog instance) ;;
      modify (DC.setActiveDialog instance) ;;;
      ret EndOfTurn
  | None => throw (TypeError "Cannot read properties of undefined (reading 'state')")
  end.

Definition endDialog (instance : DialogInstance) (reason : DialogReason)
  : M TurnContext DialogInstance :=
  (* Forward cancel to inner dialogs *)
  instance <- (if bool_decide (reason = cancelCalled) then
                 r <- onInner instance (dc_cancelAllDialogs (DC.new fuel (dialogs this))) ;;
                 ret (snd r)
               else ret instance) ;;
  (* Notify component *)
  onEndDialog protected this instance reason.

End Methods.

(** The protected methods as the class defines them. *)
Section Base.

Variable fuel : nat.

Definition base_onBeginDialog (this : t) (options : Value)
  : M (option DialogContext) DialogTurnResult :=
  match initialDialogId this with
  | Some dialogId =>
      call (dc_beginDialog (DC.new fuel (dialogs this)) dialogId options)
  | None => call (throw (UnresolvedDialogId "undefined"))
  end.

Definition base_onConsultDialog (this : t)
  : M (option DialogContext) (option DialogConsultation) :=
  call (dc_consultDialog (DC.new fuel (dialogs this))).

Definition base_onContinueDialog (this : t) (consultation : option DialogConsultation)
  : M (option DialogContext) DialogTurnResult :=
  match consultation with
  | Some c => call (processor c)
  | None => call (dc_continueDialog (DC.new fuel (dialogs this)))
  end.

Definition base_onEndDialog (this : t) (instance : DialogInstance)
    (reason : DialogReason) : M TurnContext DialogInstance :=
  ret instance.

Definition base_onRepromptDialog (this : t) (instance : DialogInstance)
  : M TurnContext DialogInstance :=
  ret instance.

Definition base_endComponent (this : t) (outerDC : DialogContextMethods)
    (result : Value) : M DialogContext DialogTurnResult :=
  dc_endDialog outerDC result.

Definition base : Overridable :=
  {| onBeginDialog := base_onBeginDialog;
     onConsultDialog := base_onConsultDialog;
     onContinueDialog := base_onContinueDialog;
     onEndDialog := base_onEndDialog;
     onRepromptDialog := base_onRepromptDialog;
     endComponent := base_endComponent |}.

End Base.

(** The component as an entry of a registry; [super] stands for the methods
    of [DialogContainer] and [Dialog] that the class does not override. *)
Definition dialog (super : Dialog.t) (fuel : nat) (protected : Overridable)
    (this : t) (dialogId : string) : Dialog.t :=
  {| Dialog.id := dialogId;
     Dialog.beginDialog := beginDialog protected this;
     Dialog.continueDialog := Dialog.continueDialog super;
     Dialog.resumeDialog := resumeDialog fuel protected this;
     Dialog.repromptDialog := repromptDialog fuel protected this;
     Dialog.endDialog := endDialog fuel protected this;
     Dialog.consultDialog := fun dc => c <- consultDialog protected this dc ;; ret (Some c);
     Dialog.onDialogEvent := Dialog.onDialogEvent super |}.

(** [onComputeID()], the identifier of a component that was given none.
    [bindingPath] is what [this.bindingPath()] of the base class returns
    (dialog.ts is missing). *)
Definition onComputeID (bindingPath : string) : string :=
  String.append "component[" (String.append bindingPath "]").

End ComponentDialog.

(** ** Vocabulary of the statements *)

(** The output [onPrompt] hands to [sendActivity] for a prompt. *)
Definition promptOutput (p : PromptContent) : Output :=
  {| content := p; speak := None; hint := ExpectingInput |}.

(** A prompt that was supplied, that is, one that is truthy. *)
Definition supplied (p : option PromptContent) : option PromptContent :=
  if truthy p then p else None.

(** What a first prompt emits: the initial prompt, when one was supplied. *)
Definition initialOutputs (o : PromptOptions) : list Output :=
  match supplied (prompt o) with
  | Some p => [promptOutput p]
  | None => []
  end.

(** What a re-prompt emits: the retry prompt when one was supplied, and the
    initial prompt otherwise. *)
Definition retryOutputs (o : PromptOptions) : list Output :=
  match supplied (retryPrompt o) with
  | Some p => [promptOutput p]
  | None => initialOutputs o
  end.

(** The turn context after outputs have been sent. *)
Definition emit (outs : list Output) (c : TurnContext) : TurnContext :=
  match outs with
  | [] => c
  | _ => {| activity := activity c; responded := true;
            sent := sent c ++ outs; objects := objects c |}
  end.

(** The activity objects after [beginDialog] has seen to the input hint of
    one prompt. *)
Definition hinted (p : option PromptContent) (objs : gmap loc Activity)
  : gmap loc Activity :=
  match p with
  | Some (PActivity l) => alter ActivityPrompt.withInputHint l objs
  | _ => objs
  end.

Definition hintedContext (o : PromptOptions) (c : TurnContext) : TurnContext :=
  {| activity := activity c; responded := responded c; sent := sent c;
     objects := hinted (retryPrompt o) (hinted (prompt o) (objects c)) |}.

(** The frame of a prompt once [beginDialog] has run on it with the
    options. *)
Definition begun (o : PromptOptions) (instance : DialogInstance) : DialogInstance :=
  Build_DialogInstance (id instance)
    (StateMap.set ActivityPrompt.PERSISTED_STATE (VObject ∅)
       (StateMap.set ActivityPrompt.PERSISTED_OPTIONS (VOptions o) (state instance))).

(** Ending the frames of a stack one after the other, given top first, each
    through its own dialog's [endDialog] with reason cancelled. *)
Fixpoint endEach (dialogs : DialogSet) (frames : list DialogInstance)
  : M TurnContext unit :=
  match frames with
  | [] => ret tt
  | instance :: frames =>
      d <- DC.findDialog dialogs (id instance) ;;
      Dialog.endDialog d instance cancelCalled ;;;
      endEach dialogs frames
  end.

(** ** Dialogs and turns used as concrete inputs *)

Module Sample.

Definition hello : Activity :=
  {| type := Message; text := "hello"; inputHint := None |}.

Definition signedIn : Activity :=
  {| type := Event; text := "signin"; inputHint := None |}.

Definition stop : Activity :=
  {| type := Message; text := "stop"; inputHint := None |}.

Definition turn (a : Activity) : TurnContext :=
  {| activity := a; responded := false; sent := []; objects := ∅ |}.

(** The options of the scenario of §8: "Name?" with retry "Please answer.". *)
Definition askName : PromptOptions :=
  {| prompt := Some (PText "Name?"); retryPrompt := Some (PText "Please answer.") |}.

(** Options whose prompt and retry prompt are one and the same activity
    object, which has no input hint yet, and a turn that holds the object. *)
Definition card : Activity :=
  {| type := Message; text := "Your card?"; inputHint := None |}.

Definition askCard : PromptOptions :=
  {| prompt := Some (PActivity 0); retryPrompt := Some (PActivity 0) |}.

Definition turnWithCard : TurnContext :=
  {| activity := hello; responded := false; sent := []; objects := {[0 := card]} |}.

(** A validator that waits for an event activity. *)
Definition isEvent (p : ActivityPrompt.PromptValidatorContext) : M TurnContext bool :=
  ret (match ActivityPrompt.value (ActivityPrompt.recognized p) with
       | VActivity a => bool_decide (type a = Event)
       | _ => false
       end).

(** A validator that raises. *)
Definition failing (p : ActivityPrompt.PromptValidatorContext) : M TurnContext bool :=
  throw (Raised "validator failed").

(** A recognizer of a derived prompt: the word "stop" must be consumed by
    the prompt and may not be interrupted. *)
Definition recognizeStop (state options : Value)
  : M TurnContext ActivityPrompt.PromptRecognizerResult :=
  c <- get ;;
  ret {| ActivityPrompt.succeeded := String.eqb (text (activity c)) "stop";
         ActivityPrompt.value := VString (text (activity c));
         ActivityPrompt.allowInterruption := false |}.

Definition say (s : string) : M TurnContext unit :=
  sendActivity (PText s) None AcceptingInput.

(** A leaf dialog that reports on the turn each time it is re-prompted or
    ended, begins with the given outcome and has no interest in consultation. *)
Definition probe (dialogId : string) (begun : DialogTurnResult) : Dialog.t :=
  {| Dialog.id := dialogId;
     Dialog.beginDialog := fun dc options => ret begun;
     Dialog.continueDialog := fun dc => dc_endDialog dc VUndefined;
     Dialog.resumeDialog := fun dc reason result => dc_endDialog dc result;
     Dialog.repromptDialog := fun instance =>
       say (String.append "reprompt " dialogId) ;;; ret instance;
     Dialog.endDialog := fun instance reason =>
       say (String.append
              (if bool_decide (reason = cancelCalled) then "cancel " else "end ")
              dialogId) ;;;
       ret instance;
     Dialog.consultDialog := fun dc => ret None;
     Dialog.onDialogEvent := fun dc event => ret false |}.

(** A dialog that cancels the whole stack as soon as it is begun. *)
Definition canceller (dialogId : string) : Dialog.t :=
  {| Dialog.id := dialogId;
     Dialog.beginDialog := fun dc options =>
       dc_cancelAllDialogs dc ;;;
       ret {| status := cancelled; result := VUndefined |};
     Dialog.continueDialog := fun dc => dc_endDialog dc VUndefined;
     Dialog.resumeDialog := fun dc reason result => dc_endDialog dc result;
     Dialog.repromptDialog := fun instance => ret instance;
     Dialog.endDialog := fun instance reason => ret instance;
     Dialog.consultDialog := fun dc => ret None;
     Dialog.onDialogEvent := fun dc event => ret false |}.

(** The base class for the examples: a leaf that does nothing when it is
    re-prompted or ended. *)
Definition plain : Dialog.t :=
  {| Dialog.id := "plain";
     Dialog.beginDialog := fun dc options => ret EndOfTurn;
     Dialog.continueDialog := fun dc => dc_endDialog dc VUndefined;
     Dialog.resumeDialog := fun dc reason result => dc_endDialog dc result;
     Dialog.repromptDialog := fun instance => ret instance;
     Dialog.endDialog := fun instance reason => ret instance;
     Dialog.consultDialog := fun dc => ret None;
     Dialog.onDialogEvent := fun dc event => ret false |}.

(** An activity prompt registered as 'namePrompt'. *)
Definition namePrompt : Dialog.t :=
  ActivityPrompt.dialog plain isEvent ActivityPrompt.onRecognize "namePrompt".

(** A frame of a prompt that has been begun with [askName]. *)
Definition promptFrame : DialogInstance :=
  Build_DialogInstance "namePrompt"
    (<[ActivityPrompt.PERSISTED_STATE := VObject ∅]>
       (<[ActivityPrompt.PERSISTED_OPTIONS := VOptions askName]> ∅)).

(** A stack whose only frame is that prompt, on a turn with activity [a]. *)
Definition prompting (a : Activity) : DialogContext :=
  {| stack := [] ++ [promptFrame]; context := turn a |}.

(** What base recognition yields on a turn with activity [a]. *)
Definition recognizedActivity (a : Activity) : ActivityPrompt.PromptRecognizerResult :=
  {| ActivityPrompt.succeeded := true;
     ActivityPrompt.value := VActivity a;
     ActivityPrompt.allowInterruption := true |}.

(** The registry of a stack that holds the prompt. *)
Definition prompts : DialogSet := <["namePrompt" := namePrompt]> ∅.

(** A component with two children, 'first' added first. *)
Definition twoChildren : ComponentDialog.t :=
  ComponentDialog.addDialog (probe "second" EndOfTurn)
    (ComponentDialog.addDialog (probe "first" EndOfTurn)
       {| ComponentDialog.dialogs := ∅; ComponentDialog.initialDialogId := None |}).

(** A frame of that component with both children active, 'second' on top. *)
Definition componentFrame : DialogInstance :=
  Build_DialogInstance "profile"
    (<[ComponentDialog.PERSISTED_DIALOG_STATE :=
         VDialogState (Some [Build_DialogInstance "first" ∅;
                             Build_DialogInstance "second" ∅])]> ∅).

Definition inComponent : DialogContext :=
  {| stack := [] ++ [componentFrame]; context := turn hello |}.

(** The turn after [say s]. *)
Definition said (s : string) (c : TurnContext) : TurnContext :=
  {| activity := activity c; responded := true;
     sent := sent c ++ [{| content := PText s; speak := None; hint := AcceptingInput |}];
     objects := objects c |}.

(** A component whose cleanup and re-prompt hooks report on the turn. *)
Definition reporting (fuel : nat) : ComponentDialog.Overridable :=
  {| ComponentDialog.onBeginDialog := ComponentDialog.base_onBeginDialog fuel;
     ComponentDialog.onConsultDialog := ComponentDialog.base_onConsultDialog fuel;
     ComponentDialog.onContinueDialog := ComponentDialog.base_onContinueDialog fuel;
     ComponentDialog.onEndDialog := fun this instance reason =>
       say "cleanup" ;;; ret instance;
     ComponentDialog.onRepromptDialog := fun this instance =>
       say "component reprompt" ;;; ret instance;
     ComponentDialog.endComponent := ComponentDialog.base_endComponent |}.

(** A component whose entry dialog cancels everything when it is begun,
    a frame of it whose inner stack holds a frame already, and an outer
    registry that knows the component as 'profile'. *)
Definition cancelling : ComponentDialog.t :=
  ComponentDialog.addDialog (canceller "start")
    {| ComponentDialog.dialogs := ∅; ComponentDialog.initialDialogId := None |}.

Definition cancellingFrame : DialogInstance :=
  Build_DialogInstance "profile"
    (<[ComponentDialog.PERSISTED_DIALOG_STATE :=
         VDialogState (Some [Build_DialogInstance "start" ∅])]> ∅).

Definition inCancelling : DialogContext :=
  {| stack := [] ++ [cancellingFrame]; context := turn hello |}.

Definition outerDialogs : DialogSet :=
  <["profile" := ComponentDialog.dialog plain 1 (ComponentDialog.base 1)
                   cancelling "profile"]> ∅.

(** A freshly pushed frame: empty dialog scope. *)
Definition fresh (dialogId : string) : DialogInstance :=
  Build_DialogInstance dialogId ∅.

(** A component whose only child is the prompt, and a frame of it in which
    the prompt is active. *)
Definition withPrompt : ComponentDialog.t :=
  ComponentDialog.addDialog namePrompt
    {| ComponentDialog.dialogs := ∅; ComponentDialog.initialDialogId := None |}.

Definition promptInComponent : DialogInstance :=
  Build_DialogInstance "profile"
    (<[ComponentDialog.PERSISTED_DIALOG_STATE := VDialogState (Some [promptFrame])]> ∅).

End Sample.

(** * Properties *)

(** ** Running the monad *)

Lemma bind_Ok {S A B} (m : M S A) (k : A -> M S B) s a s' :
  m s = Ok (a, s') -> bind m k s = k a s'.
Proof. unfold bind. intros ->. reflexivity. Qed.

Lemma bind_Throw {S A B} (m : M S A) (k : A -> M S B) s e :
  m s = Throw e -> bind m k s = Throw e.
Proof. unfold bind. intros ->. reflexivity. Qed.

(** One step of a computation: the first action of a sequence returns. *)
Tactic Notation "step" "by" tactic(t) :=
  erewrite bind_Ok by t; cbv beta iota.

(** The first action of a sequence throws. *)
Tactic Notation "stop" "by" tactic(t) :=
  erewrite bind_Throw by t.

Lemma withContext_Ok {A} (m : M TurnContext A) st ctx a ctx' :
  m ctx = Ok (a, ctx') ->
  DC.withContext m {| stack := st; context := ctx |}
  = Ok (a, {| stack := st; context := ctx' |}).
Proof. unfold DC.withContext. simpl. intros ->. reflexivity. Qed.

(** ** The active frame *)

Lemma activeDialog_snoc rest instance ctx :
  DC.activeDialog {| stack := rest ++ [instance]; context := ctx |} = Some instance.
Proof. unfold DC.activeDialog. simpl. apply last_snoc. Qed.

Lemma setActiveDialog_snoc rest instance instance' ctx :
  DC.setActiveDialog instance' {| stack := rest ++ [instance]; context := ctx |}
  = {| stack := rest ++ [instance']; context := ctx |}.
Proof. unfold DC.setActiveDialog. simpl. by rewrite removelast_last. Qed.

Lemma pop_snoc rest instance ctx :
  DC.pop {| stack := rest ++ [instance]; context := ctx |}
  = {| stack := rest; context := ctx |}.
Proof. unfold DC.pop. simpl. by rewrite removelast_last. Qed.

Lemma dialog_get_snoc key rest instance ctx :
  DC.dialog_get key {| stack := rest ++ [instance]; context := ctx |}
  = Ok (StateMap.get (state instance) key,
        {| stack := rest ++ [instance]; context := ctx |}).
Proof.
  unfold DC.dialog_get.
  rewrite (bind_Ok _ _ _ (Some instance) {| stack := rest ++ [instance]; context := ctx |}).
  - reflexivity.
  - unfold gets. by rewrite activeDialog_snoc.
Qed.

Lemma dialog_set_snoc key v rest instance ctx :
  DC.dialog_set key v {| stack := rest ++ [instance]; context := ctx |}
  = Ok (tt, {| stack := rest ++ [Build_DialogInstance (id instance)
                                    (StateMap.set key v (state instance))];
               context := ctx |}).
Proof.
  unfold DC.dialog_set.
  rewrite (bind_Ok _ _ _ (Some instance) {| stack := rest ++ [instance]; context := ctx |}).
  - unfold modify. by rewrite setActiveDialog_snoc.
  - unfold gets. by rewrite activeDialog_snoc.
Qed.

(** ** ActivityPrompt *)

(** C3.  On the [consultDialog] event the prompt answers [true]
    (should-process) exactly when the recognition step over the turn
    succeeded and does not allow interruption; in every other case it
    answers [false]. *)
Theorem C3_consult_reports_should_process
    super recognize dc event rest instance ctx r ctx' :
  name event = "consultDialog" ->
  recognize (StateMap.get (state instance) ActivityPrompt.PERSISTED_STATE)
            (StateMap.get (state instance) ActivityPrompt.PERSISTED_OPTIONS) ctx
  = Ok (r, ctx') ->
  exists b,
    ActivityPrompt.onDialogEvent super recognize dc event
      {| stack := rest ++ [instance]; context := ctx |}
    = Ok (b, {| stack := rest ++ [instance]; context := ctx' |})
    /\ (b = true <->
        ActivityPrompt.succeeded r = true /\ ActivityPrompt.allowInterruption r = false).
Proof.
  intros Hev Hr. unfold ActivityPrompt.onDialogEvent. rewrite Hev. simpl.
  step by apply dialog_get_snoc.
  step by apply dialog_get_snoc.
  step by (apply withContext_Ok, Hr).
  eexists. split; [reflexivity|].
  destruct (ActivityPrompt.succeeded r), (ActivityPrompt.allowInterruption r);
    simpl; intuition congruence.
Qed.

Lemma onPrompt_first state o ctx :
  ActivityPrompt.onPrompt state (VOptions o) false ctx
  = Ok (tt, emit (initialOutputs o) ctx).
Proof.
  unfold ActivityPrompt.onPrompt, ActivityPrompt.properties, initialOutputs, supplied.
  unfold bind, ret. simpl.
  destruct (prompt o) as [[s|l]|]; simpl; try reflexivity.
  destruct (String.eqb s ""); reflexivity.
Qed.

Lemma onPrompt_retry state o ctx :
  ActivityPrompt.onPrompt state (VOptions o) true ctx
  = Ok (tt, emit (retryOutputs o) ctx).
Proof.
  unfold ActivityPrompt.onPrompt, ActivityPrompt.properties, retryOutputs,
    initialOutputs, supplied.
  unfold bind, ret. simpl.
  destruct (retryPrompt o) as [[s|l]|]; simpl; try reflexivity.
  - destruct (String.eqb s ""); simpl; [|reflexivity].
    destruct (prompt o) as [[s'|l']|]; simpl; try reflexivity.
    destruct (String.eqb s' ""); reflexivity.
  - destruct (prompt o) as [[s'|l']|]; simpl; try reflexivity.
    destruct (String.eqb s' ""); reflexivity.
Qed.

Lemma ensureInputHint_run p ctx :
  ActivityPrompt.ensureInputHint p ctx
  = Ok (tt, {| activity := activity ctx; responded := responded ctx;
               sent := sent ctx; objects := hinted p (objects ctx) |}).
Proof. destruct ctx. destruct p as [[s|l]|]; reflexivity. Qed.

Lemma scope_get_options v o m :
  StateMap.get (StateMap.set ActivityPrompt.PERSISTED_STATE v
                  (StateMap.set ActivityPrompt.PERSISTED_OPTIONS o m)) "options" = o.
Proof.
  unfold StateMap.get, StateMap.set, ActivityPrompt.PERSISTED_STATE,
    ActivityPrompt.PERSISTED_OPTIONS.
  rewrite lookup_insert_ne by discriminate. by rewrite lookup_insert_eq.
Qed.

Lemma scope_get_state v o m :
  StateMap.get (StateMap.set ActivityPrompt.PERSISTED_STATE v
                  (StateMap.set ActivityPrompt.PERSISTED_OPTIONS o m)) "state" = v.
Proof.
  unfold StateMap.get, StateMap.set, ActivityPrompt.PERSISTED_STATE.
  by rewrite lookup_insert_eq.
Qed.

(** C10.  The recognition step of the base class succeeds on every turn
    with the turn's activity as the value and with interruption allowed; so
    the base prompt answers [false] to the [consultDialog] event whatever
    the activity is. *)
Theorem C10_base_recognition_allows_interruption :
  (forall state options ctx,
      ActivityPrompt.onRecognize state options ctx
      = Ok ({| ActivityPrompt.succeeded := true;
               ActivityPrompt.value := VActivity (activity ctx);
               ActivityPrompt.allowInterruption := true |}, ctx))
  /\ (forall super dc v rest instance ctx,
         ActivityPrompt.onDialogEvent super ActivityPrompt.onRecognize dc
           {| name := "consultDialog"; value := v |}
           {| stack := rest ++ [instance]; context := ctx |}
         = Ok (false, {| stack := rest ++ [instance]; context := ctx |})).
Proof.
  split; [reflexivity|]. intros.
  unfold ActivityPrompt.onDialogEvent. simpl.
  step by apply dialog_get_snoc.
  step by apply dialog_get_snoc.
  step by (apply withContext_Ok; reflexivity).
  reflexivity.
Qed.

(** C6.  [beginDialog] stores the options under 'options' and an empty
    object under 'state' in the dialog scope of the active frame, sends the
    initial prompt (never the retry prompt) and returns the waiting outcome,
    the frame staying where it is.  The options are stored as they were
    passed; the input hint goes to the activity objects they refer to. *)
Theorem C6_beginDialog_stores_options_and_prompts dc options rest instance ctx :
  let scope := StateMap.set ActivityPrompt.PERSISTED_STATE (VObject ∅)
                 (StateMap.set ActivityPrompt.PERSISTED_OPTIONS (VOptions options)
                    (state instance)) in
  ActivityPrompt.beginDialog dc options
    {| stack := rest ++ [instance]; context := ctx |}
  = Ok (EndOfTurn,
        {| stack := rest ++ [Build_DialogInstance (id instance) scope];
           context := emit (initialOutputs options) (hintedContext options ctx) |})
  /\ StateMap.get scope "options" = VOptions options
  /\ StateMap.get scope "state" = VObject ∅
  /\ (forall key, key <> "options" -> key <> "state" ->
                  scope !! key = state instance !! key)
  /\ status EndOfTurn = waiting.
Proof.
  intros scope. split; [|repeat split].
  - unfold ActivityPrompt.beginDialog.
    step by (apply withContext_Ok, ensureInputHint_run).
    step by (apply withContext_Ok, ensureInputHint_run).
    step by apply dialog_set_snoc.
    step by apply dialog_set_snoc.
    step by apply dialog_get_snoc.
    step by apply dialog_get_snoc.
    simpl.
    erewrite bind_Ok; [reflexivity|].
    apply withContext_Ok.
    rewrite scope_get_options. apply onPrompt_first.
  - apply scope_get_options.
  - apply scope_get_state.
  - intros key H1 H2.
    unfold scope, StateMap.set, ActivityPrompt.PERSISTED_STATE,
      ActivityPrompt.PERSISTED_OPTIONS.
    rewrite lookup_insert_ne by done. by rewrite lookup_insert_ne.
Qed.

(** [continueDialog] up to the verdict of the validator. *)
Lemma continueDialog_validated validator recognize dc rest instance ctx r ctx1 ok ctx2 :
  let st := StateMap.get (state instance) ActivityPrompt.PERSISTED_STATE in
  let o := StateMap.get (state instance) ActivityPrompt.PERSISTED_OPTIONS in
  recognize st o ctx = Ok (r, ctx1) ->
  validator {| ActivityPrompt.recognized := r;
               ActivityPrompt.validatorState := st;
               ActivityPrompt.options := o |} ctx1 = Ok (ok, ctx2) ->
  ActivityPrompt.continueDialog validator recognize dc
    {| stack := rest ++ [instance]; context := ctx |}
  = if ok then
      dc_endDialog dc (ActivityPrompt.value r)
        {| stack := rest ++ [instance]; context := ctx2 |}
    else
      ((if bool_decide (type (activity ctx2) = Message) && negb (responded ctx2)
        then DC.withContext (ActivityPrompt.onPrompt st o true)
        else ret tt) ;;; ret EndOfTurn)
        {| stack := rest ++ [instance]; context := ctx2 |}.
Proof.
  intros st o Hr Hv. unfold ActivityPrompt.continueDialog.
  step by apply dialog_get_snoc.
  step by apply dialog_get_snoc.
  step by (apply withContext_Ok, Hr).
  step by (apply withContext_Ok, Hv).
  destruct ok; reflexivity.
Qed.

Lemma get_options instance o :
  state instance !! "options" = Some o ->
  StateMap.get (state instance) ActivityPrompt.PERSISTED_OPTIONS = o.
Proof. unfold StateMap.get, ActivityPrompt.PERSISTED_OPTIONS. by intros ->. Qed.

(** The re-prompt branch of [continueDialog]. *)
Lemma continueDialog_rejected validator recognize dc rest instance ctx po r ctx1 ctx2 :
  let st := StateMap.get (state instance) ActivityPrompt.PERSISTED_STATE in
  state instance !! "options" = Some (VOptions po) ->
  recognize st (VOptions po) ctx = Ok (r, ctx1) ->
  validator {| ActivityPrompt.recognized := r;
               ActivityPrompt.validatorState := st;
               ActivityPrompt.options := VOptions po |} ctx1 = Ok (false, ctx2) ->
  ActivityPrompt.continueDialog validator recognize dc
    {| stack := rest ++ [instance]; context := ctx |}
  = Ok (EndOfTurn,
        {| stack := rest ++ [instance];
           context := if bool_decide (type (activity ctx2) = Message)
                         && negb (responded ctx2)
                      then emit (retryOutputs po) ctx2
                      else ctx2 |}).
Proof.
  intros st Ho Hr Hv.
  rewrite (continueDialog_validated validator recognize dc rest instance ctx r ctx1
             false ctx2); rewrite (get_options _ _ Ho); try assumption.
  destruct (bool_decide (type (activity ctx2) = Message) && negb (responded ctx2)).
  - step by (apply withContext_Ok, onPrompt_retry). reflexivity.
  - reflexivity.
Qed.

(** §7 (c): an exception of the validator is propagated. *)
Lemma continueDialog_validator_throws validator recognize dc rest instance ctx r ctx1 e :
  let st := StateMap.get (state instance) ActivityPrompt.PERSISTED_STATE in
  let o := StateMap.get (state instance) ActivityPrompt.PERSISTED_OPTIONS in
  recognize st o ctx = Ok (r, ctx1) ->
  validator {| ActivityPrompt.recognized := r;
               ActivityPrompt.validatorState := st;
               ActivityPrompt.options := o |} ctx1 = Throw e ->
  ActivityPrompt.continueDialog validator recognize dc
    {| stack := rest ++ [instance]; context := ctx |} = Throw e.
Proof.
  intros st o Hr Hv. unfold ActivityPrompt.continueDialog.
  step by apply dialog_get_snoc.
  step by apply dialog_get_snoc.
  step by (apply withContext_Ok, Hr).
  erewrite bind_Throw; [reflexivity|].
  unfold DC.withContext. simpl. fold st o. by rewrite Hv.
Qed.

Example validator_exception_reaches_the_caller :
  ActivityPrompt.continueDialog Sample.failing ActivityPrompt.onRecognize
    (DC.new 1 Sample.prompts) (Sample.prompting Sample.hello)
  = Throw (Raised "validator failed").
Proof. reflexivity. Qed.

(** ** What the modelled context does when a frame ends *)

Lemma findDialog_Some {S} (dialogs : DialogSet) dialogId d (s : S) :
  dialogs !! dialogId = Some d -> DC.findDialog dialogs dialogId s = Ok (d, s).
Proof. unfold DC.findDialog. by intros ->. Qed.

Lemma findDialog_None {S} (dialogs : DialogSet) dialogId (s : S) :
  dialogs !! dialogId = None ->
  DC.findDialog dialogs dialogId s = Throw (UnresolvedDialogId dialogId).
Proof. unfold DC.findDialog. by intros ->. Qed.

Lemma endActiveDialog_snoc dialogs reason rest instance ctx d instance' ctx' :
  dialogs !! id instance = Some d ->
  Dialog.endDialog d instance reason ctx = Ok (instance', ctx') ->
  DC.endActiveDialog dialogs reason {| stack := rest ++ [instance]; context := ctx |}
  = Ok (tt, {| stack := rest; context := ctx' |}).
Proof.
  intros Hd He. unfold DC.endActiveDialog.
  step by (unfold gets; by rewrite activeDialog_snoc).
  cbv beta iota.
  step by (apply findDialog_Some, Hd).
  step by (apply withContext_Ok, He).
  unfold modify. by rewrite pop_snoc.
Qed.

Lemma endActiveDialog_nil dialogs reason ctx :
  DC.endActiveDialog dialogs reason {| stack := []; context := ctx |}
  = Ok (tt, {| stack := []; context := ctx |}).
Proof. reflexivity. Qed.

(** Ending the only frame of a stack completes with the result. *)
Lemma DC_endDialog_last_frame dialogs self v instance ctx d instance' ctx' :
  dialogs !! id instance = Some d ->
  Dialog.endDialog d instance endCalled ctx = Ok (instance', ctx') ->
  DC.endDialog dialogs self v {| stack := [] ++ [instance]; context := ctx |}
  = Ok ({| status := complete; result := v |}, {| stack := []; context := ctx' |}).
Proof.
  intros Hd He. unfold DC.endDialog.
  step by (eapply endActiveDialog_snoc; eassumption).
  reflexivity.
Qed.

(** Ending a frame that has a frame below resumes that frame with the
    result. *)
Lemma DC_endDialog_resumes_parent dialogs self v below parent instance ctx
    d instance' ctx' p :
  dialogs !! id instance = Some d ->
  Dialog.endDialog d instance endCalled ctx = Ok (instance', ctx') ->
  dialogs !! id parent = Some p ->
  DC.endDialog dialogs self v
    {| stack := (below ++ [parent]) ++ [instance]; context := ctx |}
  = Dialog.resumeDialog p self endCalled v
      {| stack := below ++ [parent]; context := ctx' |}.
Proof.
  intros Hd He Hp. unfold DC.endDialog.
  step by (eapply endActiveDialog_snoc; eassumption).
  step by (unfold gets; by rewrite activeDialog_snoc).
  cbv beta iota.
  step by (apply findDialog_Some, Hp).
  reflexivity.
Qed.

(** C5.  When the validator accepts, [continueDialog] ends the prompt's
    frame with the recognized value: it is [dc.endDialog(recognized.value)],
    which on the modelled context pops the frame and completes with the
    value, or resumes the frame below with it.  When the validator rejects,
    the outcome is waiting, and the retry prompt (or, none supplied, the
    initial prompt) is sent exactly when the activity is a message and the
    turn has not been responded to. *)
Theorem C5_continueDialog_ends_or_reprompts
    validator recognize dc rest instance ctx po r ctx1 ok ctx2 :
  let st := StateMap.get (state instance) ActivityPrompt.PERSISTED_STATE in
  let s := {| stack := rest ++ [instance]; context := ctx |} in
  state instance !! "options" = Some (VOptions po) ->
  recognize st (VOptions po) ctx = Ok (r, ctx1) ->
  validator {| ActivityPrompt.recognized := r;
               ActivityPrompt.validatorState := st;
               ActivityPrompt.options := VOptions po |} ctx1 = Ok (ok, ctx2) ->
  (ok = true ->
     ActivityPrompt.continueDialog validator recognize dc s
     = dc_endDialog dc (ActivityPrompt.value r)
         {| stack := rest ++ [instance]; context := ctx2 |})
  /\ (ok = true ->
      forall n dialogs d instance' ctx3,
        dialogs !! id instance = Some d ->
        Dialog.endDialog d instance endCalled ctx2 = Ok (instance', ctx3) ->
        (rest = [] ->
           ActivityPrompt.continueDialog validator recognize (DC.new (S n) dialogs) s
           = Ok ({| status := complete; result := ActivityPrompt.value r |},
                 {| stack := []; context := ctx3 |}))
        /\ (forall below parent p,
              rest = below ++ [parent] ->
              dialogs !! id parent = Some p ->
              ActivityPrompt.continueDialog validator recognize (DC.new (S n) dialogs) s
              = Dialog.resumeDialog p (DC.new n dialogs) endCalled (ActivityPrompt.value r)
                  {| stack := below ++ [parent]; context := ctx3 |}))
  /\ (ok = false ->
      ActivityPrompt.continueDialog validator recognize dc s
      = Ok (EndOfTurn,
            {| stack := rest ++ [instance];
               context := if bool_decide (type (activity ctx2) = Message)
                             && negb (responded ctx2)
                          then emit (retryOutputs po) ctx2
                          else ctx2 |})).
Proof.
  intros st s Ho Hr Hv.
  assert (Hrun : forall dc',
    ok = true ->
    ActivityPrompt.continueDialog validator recognize dc' s
    = dc_endDialog dc' (ActivityPrompt.value r)
        {| stack := rest ++ [instance]; context := ctx2 |}).
  { intros dc' ->. unfold s.
    rewrite (continueDialog_validated validator recognize dc' rest instance ctx r ctx1
               true ctx2); rewrite ?(get_options _ _ Ho); done. }
  split; [apply Hrun|]. split.
  - intros Hok n dialogs d instance' ctx3 Hd He. split.
    + intros ->. rewrite (Hrun _ Hok). simpl.
      by apply (DC_endDialog_last_frame dialogs _ _ instance ctx2 d instance' ctx3).
    + intros below parent p -> Hp. rewrite (Hrun _ Hok). simpl.
      by apply (DC_endDialog_resumes_parent dialogs _ _ below parent instance ctx2
                  d instance' ctx3 p).
  - intros ->. by apply continueDialog_rejected with (r := r) (ctx1 := ctx1).
Qed.

(** C9.  On a turn whose input the validator rejects, the stack is the
    same before and after (no frame popped, none pushed), the options held
    in the dialog scope are the same, and the engine leaves the activity
    objects they refer to as the validator left them. *)
Theorem C9_retry_keeps_stack_and_options
    validator recognize dc rest instance ctx po r ctx1 ctx2 :
  let st := StateMap.get (state instance) ActivityPrompt.PERSISTED_STATE in
  let s := {| stack := rest ++ [instance]; context := ctx |} in
  state instance !! "options" = Some (VOptions po) ->
  recognize st (VOptions po) ctx = Ok (r, ctx1) ->
  validator {| ActivityPrompt.recognized := r;
               ActivityPrompt.validatorState := st;
               ActivityPrompt.options := VOptions po |} ctx1 = Ok (false, ctx2) ->
  exists s',
    ActivityPrompt.continueDialog validator recognize dc s = Ok (EndOfTurn, s')
    /\ stack s' = stack s
    /\ length (stack s') = length (stack s)
    /\ DC.dialog_get "options" s' = Ok (VOptions po, s')
    /\ DC.dialog_get "options" s = Ok (VOptions po, s)
    /\ objects (context s') = objects ctx2.
Proof.
  intros st s Ho Hr Hv. eexists. split.
  { eapply continueDialog_rejected; eassumption. }
  simpl. repeat split.
  - rewrite dialog_get_snoc. unfold StateMap.get. by rewrite Ho.
  - unfold s. rewrite dialog_get_snoc. unfold StateMap.get. by rewrite Ho.
  - destruct (bool_decide (type (activity ctx2) = Message) && negb (responded ctx2));
      [|reflexivity].
    unfold emit. destruct (retryOutputs po); reflexivity.
Qed.

(** A re-prompt of the prompt: the retry prompt, or the initial one. *)
Lemma ActivityPrompt_repromptDialog instance po ctx :
  state instance !! "options" = Some (VOptions po) ->
  ActivityPrompt.repromptDialog instance ctx
  = Ok (instance, emit (retryOutputs po) ctx).
Proof.
  intros Ho. unfold ActivityPrompt.repromptDialog.
  rewrite (get_options _ _ Ho).
  step by apply onPrompt_retry. reflexivity.
Qed.

Lemma ActivityPrompt_resumeDialog dc reason result rest instance po ctx :
  state instance !! "options" = Some (VOptions po) ->
  ActivityPrompt.resumeDialog dc reason result
    {| stack := rest ++ [instance]; context := ctx |}
  = Ok (EndOfTurn,
        {| stack := rest ++ [instance]; context := emit (retryOutputs po) ctx |}).
Proof.
  intros Ho. unfold ActivityPrompt.resumeDialog.
  step by (unfold gets; by rewrite activeDialog_snoc).
  cbv beta iota.
  step by (apply withContext_Ok, ActivityPrompt_repromptDialog, Ho).
  step by (unfold modify; by rewrite setActiveDialog_snoc).
  reflexivity.
Qed.

(** ** ComponentDialog *)

Lemma new_cancelAllDialogs fuel dialogs :
  dc_cancelAllDialogs (DC.new fuel dialogs) = DC.cancelAllDialogs dialogs.
Proof. by destruct fuel. Qed.

Lemma new_repromptDialog fuel dialogs :
  dc_repromptDialog (DC.new fuel dialogs) = DC.repromptDialog dialogs.
Proof. by destruct fuel. Qed.

Lemma setInnerStack_twice a b instance :
  ComponentDialog.setInnerStack a (ComponentDialog.setInnerStack b instance)
  = ComponentDialog.setInnerStack a instance.
Proof.
  unfold ComponentDialog.setInnerStack. simpl. by rewrite insert_insert_eq.
Qed.

Lemma createInnerDC_Ok ctx instance ds :
  state instance !! "dialogs" = Some (VDialogState ds) ->
  ComponentDialog.createInnerDC ctx instance
  = Ok ({| stack := default [] ds; context := ctx |},
        ComponentDialog.setInnerStack (default [] ds) instance).
Proof.
  unfold ComponentDialog.createInnerDC, ComponentDialog.PERSISTED_DIALOG_STATE.
  by intros ->.
Qed.

Lemma createInnerDC_fresh ctx instance :
  state instance !! "dialogs" = None ->
  ComponentDialog.createInnerDC ctx instance
  = Throw (TypeError "Cannot read properties of undefined (reading 'dialogStack')").
Proof.
  unfold ComponentDialog.createInnerDC, ComponentDialog.PERSISTED_DIALOG_STATE.
  by intros ->.
Qed.

Lemma onInner_run {A} (m : M DialogContext A) instance ds ctx :
  state instance !! "dialogs" = Some (VDialogState ds) ->
  ComponentDialog.onInner instance m ctx
  = match m {| stack := default [] ds; context := ctx |} with
    | Ok (a, innerDC) =>
        Ok ((a, ComponentDialog.setInnerStack (stack innerDC) instance), context innerDC)
    | Throw e => Throw e
    end.
Proof.
  intros Hs. unfold ComponentDialog.onInner. rewrite (createInnerDC_Ok _ _ _ Hs).
  destruct (m _) as [[a innerDC]|e]; [|reflexivity].
  by rewrite setInnerStack_twice.
Qed.

Lemma endActiveDialog_unresolved dialogs reason rest instance ctx :
  dialogs !! id instance = None ->
  DC.endActiveDialog dialogs reason {| stack := rest ++ [instance]; context := ctx |}
  = Throw (UnresolvedDialogId (id instance)).
Proof.
  intros Hd. unfold DC.endActiveDialog.
  step by (unfold gets; by rewrite activeDialog_snoc).
  cbv beta iota.
  stop by (apply findDialog_None, Hd). reflexivity.
Qed.

Lemma endActiveDialog_throws dialogs reason rest instance ctx d e :
  dialogs !! id instance = Some d ->
  Dialog.endDialog d instance reason ctx = Throw e ->
  DC.endActiveDialog dialogs reason {| stack := rest ++ [instance]; context := ctx |}
  = Throw e.
Proof.
  intros Hd He. unfold DC.endActiveDialog.
  step by (unfold gets; by rewrite activeDialog_snoc).
  cbv beta iota.
  step by (apply findDialog_Some, Hd).
  erewrite bind_Throw; [reflexivity|].
  unfold DC.withContext. simpl. by rewrite He.
Qed.

(** Cancelling a stack ends its frames one after the other from the top
    and leaves the stack empty. *)
Lemma cancelFrames_endEach dialogs frames ctx :
  DC.cancelFrames dialogs (length frames) {| stack := frames; context := ctx |}
  = match endEach dialogs (rev frames) ctx with
    | Ok (_, ctx') => Ok (tt, {| stack := []; context := ctx' |})
    | Throw e => Throw e
    end.
Proof.
  revert ctx. induction frames as [|instance frames IH] using rev_ind; intros ctx.
  - reflexivity.
  - rewrite length_app, Nat.add_1_r, rev_unit. simpl.
    destruct (dialogs !! id instance) as [d|] eqn:Hd.
    + destruct (Dialog.endDialog d instance cancelCalled ctx) as [[instance' ctx']|e]
        eqn:He.
      * step by (eapply endActiveDialog_snoc; eassumption).
        erewrite (bind_Ok (DC.findDialog dialogs (id instance)))
          by (apply findDialog_Some, Hd).
        erewrite (bind_Ok (Dialog.endDialog d instance cancelCalled)) by apply He.
        apply IH.
      * stop by (eapply endActiveDialog_throws; eassumption).
        erewrite (bind_Ok (DC.findDialog dialogs (id instance)))
          by (apply findDialog_Some, Hd).
        stop by apply He. reflexivity.
    + stop by (by apply endActiveDialog_unresolved).
      stop by (apply findDialog_None, Hd). reflexivity.
Qed.

Lemma cancelAllDialogs_endEach dialogs frames ctx :
  DC.cancelAllDialogs dialogs {| stack := frames; context := ctx |}
  = match endEach dialogs (rev frames) ctx with
    | Ok (_, ctx') => Ok (tt, {| stack := []; context := ctx' |})
    | Throw e => Throw e
    end.
Proof. apply cancelFrames_endEach. Qed.

(** C1.  With reason cancelled, [endDialog] of a component first ends every
    frame of the inner stack, from the top down and each through its own
    dialog's [endDialog], and only then invokes [onEndDialog], which finds
    the inner stack empty; with any other reason it invokes [onEndDialog]
    and nothing else. *)
Theorem C1_cancel_ends_inner_frames_before_cleanup :
  (forall fuel protected this instance ds ctx,
      state instance !! "dialogs" = Some (VDialogState ds) ->
      ComponentDialog.endDialog fuel protected this instance cancelCalled ctx
      = (endEach (ComponentDialog.dialogs this) (rev (default [] ds)) ;;;
         ComponentDialog.onEndDialog protected this
           (ComponentDialog.setInnerStack [] instance) cancelCalled) ctx)
  /\ (forall fuel protected this instance reason ctx,
         reason <> cancelCalled ->
         ComponentDialog.endDialog fuel protected this instance reason ctx
         = ComponentDialog.onEndDialog protected this instance reason ctx).
Proof.
  split.
  - intros fuel protected this instance ds ctx Hs.
    unfold ComponentDialog.endDialog. simpl.
    unfold bind at 1. unfold bind at 1.
    rewrite (onInner_run _ _ _ _ Hs), new_cancelAllDialogs, cancelAllDialogs_endEach.
    unfold bind at 1.
    destruct (endEach _ _ ctx) as [[[] ctx']|e]; reflexivity.
  - intros fuel protected this instance reason ctx Hr.
    unfold ComponentDialog.endDialog.
    rewrite bool_decide_eq_false_2 by done. reflexivity.
Qed.

Lemma createChildContext_Ok rest instance ds ctx :
  state instance !! "dialogs" = Some (VDialogState ds) ->
  ComponentDialog.createChildContext {| stack := rest ++ [instance]; context := ctx |}
  = Ok (if bool_decide (0 < length (default [] ds))
        then Some {| stack := default [] ds; context := ctx |}
        else None,
        {| stack := rest ++ [ComponentDialog.setInnerStack (default [] ds) instance];
           context := ctx |}).
Proof.
  intros Hs. unfold ComponentDialog.createChildContext.
  rewrite activeDialog_snoc. simpl. rewrite (createInnerDC_Ok _ _ _ Hs).
  by rewrite setActiveDialog_snoc.
Qed.

Lemma createChildContext_inv s innerDC s1 :
  ComponentDialog.createChildContext s = Ok (innerDC, s1) ->
  exists rest instance instance1,
    stack s = rest ++ [instance]
    /\ stack s1 = rest ++ [instance1]
    /\ id instance1 = id instance.
Proof.
  unfold ComponentDialog.createChildContext. destruct s as [st ctx].
  destruct (DC.activeDialog _) as [instance|] eqn:Ha; [|discriminate].
  apply last_Some in Ha as [rest Hst]. simpl in Hst. subst st. simpl.
  destruct (ComponentDialog.createInnerDC ctx instance) as [[childDC instance1]|e]
    eqn:Hc; [|discriminate].
  intros [= <- <-]. exists rest, instance, instance1.
  rewrite setActiveDialog_snoc. repeat split.
  unfold ComponentDialog.createInnerDC in Hc.
  destruct (state instance !! _) as [[| | | | | |ds]|]; try discriminate.
  by injection Hc as <- <-.
Qed.

Lemma onInnerDC_frame {A} innerDC (m : M (option DialogContext) A) rest instance ctx a s2 :
  ComponentDialog.onInnerDC innerDC m {| stack := rest ++ [instance]; context := ctx |}
  = Ok (a, s2) ->
  exists instance', stack s2 = rest ++ [instance'] /\ id instance' = id instance.
Proof.
  unfold ComponentDialog.onInnerDC. rewrite activeDialog_snoc.
  destruct (m innerDC) as [[a' [inner'|]]|e]; [| |discriminate].
  - rewrite setActiveDialog_snoc. intros [= <- <-]. simpl. eauto.
  - intros [= <- <-]. simpl. eauto.
Qed.

(** C2, as the code has it.  Whenever starting the entry dialog on the
    inner stack yields a result: if its status is anything but waiting
    (complete, cancelled or empty) [beginDialog] ends the component through
    [endComponent] with the inner result value, which in the base class is
    the outer context's [endDialog]; if it is waiting, [beginDialog] returns
    the waiting outcome and the outer frame stays on the stack. *)
Theorem C2_beginDialog_ends_component_unless_waiting
    protected this outerDC options s innerDC s1 r s2 :
  ComponentDialog.createChildContext s = Ok (innerDC, s1) ->
  ComponentDialog.onInnerDC innerDC
    (ComponentDialog.onBeginDialog protected this options) s1 = Ok (r, s2) ->
  (status r <> waiting ->
     ComponentDialog.beginDialog protected this outerDC options s
     = ComponentDialog.endComponent protected this outerDC (result r) s2)
  /\ (status r = waiting ->
      ComponentDialog.beginDialog protected this outerDC options s
      = Ok (EndOfTurn, s2))
  /\ (exists rest instance instance',
         stack s = rest ++ [instance]
         /\ stack s2 = rest ++ [instance']
         /\ id instance' = id instance)
  /\ (forall fuel,
         ComponentDialog.endComponent (ComponentDialog.base fuel) this outerDC (result r)
         = dc_endDialog outerDC (result r)).
Proof.
  intros Hc Hb. repeat split.
  - intros Hw. unfold ComponentDialog.beginDialog.
    step by apply Hc. step by apply Hb.
    by rewrite bool_decide_eq_true_2.
  - intros Hw. unfold ComponentDialog.beginDialog.
    step by apply Hc. step by apply Hb.
    by rewrite bool_decide_eq_false_2 by (by intros []).
  - destruct (createChildContext_inv _ _ _ Hc) as (rest & instance & instance1 & Hs & Hs1 & Hid).
    destruct s1 as [st1 ctx1]. simpl in Hs1. subst st1.
    destruct (onInnerDC_frame _ _ _ _ _ _ _ Hb) as (instance' & Hs2 & Hid').
    exists rest, instance, instance'. repeat split; [done..|congruence].
Qed.

(** C7, as the code has it.  The consultation a component returns carries
    the priority of the consultation its inner stack produced; when the
    inner stack produced none, it carries can-process, and its action is
    [onContinueDialog], which in the base class continues the inner stack. *)
Theorem C7_consultDialog_surfaces_inner_priority
    protected this outerDC s innerDC s1 inner s2 :
  ComponentDialog.createChildContext s = Ok (innerDC, s1) ->
  ComponentDialog.onInnerDC innerDC
    (ComponentDialog.onConsultDialog protected this) s1 = Ok (inner, s2) ->
  exists c,
    ComponentDialog.consultDialog protected this outerDC s = Ok (c, s2)
    /\ (forall i, inner = Some i -> desire c = desire i)
    /\ (inner = None -> desire c = canProcess)
    /\ processor c
       = (innerDC <- ComponentDialog.captured innerDC ;;
          ComponentDialog.onInnerDC innerDC
            (ComponentDialog.onContinueDialog protected this inner)).
Proof.
  intros Hc Hi. eexists. split.
  - unfold ComponentDialog.consultDialog.
    step by apply Hc. step by apply Hi. reflexivity.
  - simpl. repeat split; by intros; subst.
Qed.

(** ** The entry point of a component *)

Lemma addDialog_initialDialogId dialog this :
  ComponentDialog.initialDialogId (ComponentDialog.addDialog dialog this)
  = Some (default (Dialog.id dialog) (ComponentDialog.initialDialogId this)).
Proof.
  destruct this as [dialogs [i|]]; reflexivity.
Qed.

(** After any sequence of [addDialog] calls the entry point is the one
    assigned beforehand, or else the identifier of the first dialog added. *)
Lemma addDialogs_first_registered first others this :
  ComponentDialog.initialDialogId
    (foldl (fun this dialog => ComponentDialog.addDialog dialog this) this
       (first :: others))
  = Some (default (Dialog.id first) (ComponentDialog.initialDialogId this)).
Proof.
  simpl. generalize (addDialog_initialDialogId first this).
  generalize (ComponentDialog.addDialog first this) as this1.
  generalize (default (Dialog.id first) (ComponentDialog.initialDialogId this)) as i.
  induction others as [|d others IH]; intros i this1 H; [done|].
  simpl. apply IH. by rewrite addDialog_initialDialogId, H.
Qed.

(** Handed an inner context, the base [onBeginDialog] begins the entry
    point on it. *)
Lemma base_onBeginDialog_entry fuel this dialogId options innerDC :
  ComponentDialog.initialDialogId this = Some dialogId ->
  ComponentDialog.base_onBeginDialog fuel this options (Some innerDC)
  = match dc_beginDialog (DC.new fuel (ComponentDialog.dialogs this))
            dialogId options innerDC with
    | Ok (r, innerDC) => Ok (r, Some innerDC)
    | Throw e => Throw e
    end.
Proof. unfold ComponentDialog.base_onBeginDialog. by intros ->. Qed.

(** C8.  On a frame that has just been pushed, and on any frame whose
    inner stack is empty, [beginDialog] of a component throws before the
    entry dialog is begun: the inner context is read from persisted state
    that nothing has stored, and an inner context over an empty stack is
    handed on as undefined. *)
Theorem C8_beginDialog_on_new_frame_throws :
  (forall protected this outerDC options rest dialogId ctx,
      ComponentDialog.beginDialog protected this outerDC options
        {| stack := rest ++ [Build_DialogInstance dialogId ∅]; context := ctx |}
      = Throw (TypeError "Cannot read properties of undefined (reading 'dialogStack')"))
  /\ (forall fuel this outerDC options rest dialogId scope (isArray : bool) ctx,
         ComponentDialog.beginDialog (ComponentDialog.base fuel) this outerDC options
           {| stack := rest ++ [Build_DialogInstance dialogId
                                  (<["dialogs" := VDialogState
                                        (if isArray then Some [] else None)]> scope)];
              context := ctx |}
         = Throw (TypeError "Cannot read properties of undefined"))
  /\ (forall super fuel this dialogs self options st ctx,
         DC.beginDialog
           (<["profile" := ComponentDialog.dialog super fuel
                             (ComponentDialog.base fuel) this "profile"]> dialogs)
           self "profile" options {| stack := st; context := ctx |}
         = Throw (TypeError "Cannot read properties of undefined (reading 'dialogStack')")).
Proof.
  assert (Hfresh : forall protected this outerDC options rest dialogId ctx,
      ComponentDialog.beginDialog protected this outerDC options
        {| stack := rest ++ [Build_DialogInstance dialogId ∅]; context := ctx |}
      = Throw (TypeError "Cannot read properties of undefined (reading 'dialogStack')")).
  { intros. unfold ComponentDialog.beginDialog.
    erewrite bind_Throw; [reflexivity|].
    unfold ComponentDialog.createChildContext. rewrite activeDialog_snoc.
    by rewrite createInnerDC_fresh. }
  split; [exact Hfresh|]. split.
  - intros. unfold ComponentDialog.beginDialog.
    erewrite bind_Ok.
    2:{ apply createChildContext_Ok with (ds := if isArray then Some [] else None).
        simpl. by rewrite lookup_insert_eq. }
    replace (bool_decide (0 < length (default [] (if isArray then Some [] else None))))
      with false by (by destruct isArray).
    erewrite bind_Throw; [reflexivity|].
    unfold ComponentDialog.onInnerDC. simpl.
    unfold ComponentDialog.base_onBeginDialog.
    by destruct (ComponentDialog.initialDialogId this).
  - intros. unfold DC.beginDialog.
    step by (apply findDialog_Some, lookup_insert_eq).
    step by reflexivity.
    erewrite bind_Throw; [reflexivity|].
    unfold DC.push. simpl. apply Hfresh.
Qed.

(** ** Re-prompting *)

Lemma DC_repromptDialog_top dialogs below top ctx d top' ctx' :
  dialogs !! id top = Some d ->
  Dialog.repromptDialog d top ctx = Ok (top', ctx') ->
  DC.repromptDialog dialogs {| stack := below ++ [top]; context := ctx |}
  = Ok (tt, {| stack := below ++ [top']; context := ctx' |}).
Proof.
  intros Hd Hr. unfold DC.repromptDialog.
  step by (unfold gets; by rewrite activeDialog_snoc).
  cbv beta iota.
  step by (apply findDialog_Some, Hd).
  step by (apply withContext_Ok, Hr).
  unfold modify. by rewrite setActiveDialog_snoc.
Qed.

Lemma DC_repromptDialog_nil dialogs ctx :
  DC.repromptDialog dialogs {| stack := []; context := ctx |}
  = Ok (tt, {| stack := []; context := ctx |}).
Proof. reflexivity. Qed.

Lemma ComponentDialog_repromptDialog fuel protected this instance ds ctx inner' :
  state instance !! "dialogs" = Some (VDialogState ds) ->
  DC.repromptDialog (ComponentDialog.dialogs this)
    {| stack := default [] ds; context := ctx |} = Ok (tt, inner') ->
  ComponentDialog.repromptDialog fuel protected this instance ctx
  = ComponentDialog.onRepromptDialog protected this
      (ComponentDialog.setInnerStack (stack inner') instance) (context inner').
Proof.
  intros Hs Hr. unfold ComponentDialog.repromptDialog.
  rewrite (bind_Ok _ _ ctx
             (tt, ComponentDialog.setInnerStack (stack inner') instance)
             (context inner')); [reflexivity|].
  rewrite (onInner_run _ _ _ _ Hs), new_repromptDialog, Hr. reflexivity.
Qed.

(** C4.  [resumeDialog] of an activity prompt and of a component ignores
    its reason and result: it re-prompts and returns the waiting outcome
    with the frame still on the stack.  The prompt sends its retry prompt (or,
    none supplied, its initial prompt); the component has the top frame of
    its inner stack re-prompt and then runs [onRepromptDialog].  No error is
    raised as long as the frame holds what its dialog persisted and the
    inner re-prompt and the hook raise none. *)
Theorem C4_resumeDialog_reprompts_and_waits :
  (forall dc reason result rest instance po ctx,
      state instance !! "options" = Some (VOptions po) ->
      ActivityPrompt.resumeDialog dc reason result
        {| stack := rest ++ [instance]; context := ctx |}
      = Ok (EndOfTurn,
            {| stack := rest ++ [instance];
               context := emit (retryOutputs po) ctx |}))
  /\ (forall fuel protected this dc reason result rest instance ds ctx
             inner' instance' ctx',
         state instance !! "dialogs" = Some (VDialogState ds) ->
         DC.repromptDialog (ComponentDialog.dialogs this)
           {| stack := default [] ds; context := ctx |} = Ok (tt, inner') ->
         ComponentDialog.onRepromptDialog protected this
           (ComponentDialog.setInnerStack (stack inner') instance) (context inner')
         = Ok (instance', ctx') ->
         ComponentDialog.resumeDialog fuel protected this dc reason result
           {| stack := rest ++ [instance]; context := ctx |}
         = Ok (EndOfTurn, {| stack := rest ++ [instance']; context := ctx' |})).
Proof.
  split.
  - intros. by apply ActivityPrompt_resumeDialog.
  - intros fuel protected this dc reason result rest instance ds ctx
      inner' instance' ctx' Hs Hr Hh.
    unfold ComponentDialog.resumeDialog.
    step by (unfold gets; by rewrite activeDialog_snoc).
    cbv beta iota.
    erewrite bind_Ok.
    2:{ apply withContext_Ok.
        rewrite (ComponentDialog_repromptDialog _ _ _ _ _ _ _ Hs Hr). apply Hh. }
    step by (unfold modify; by rewrite setActiveDialog_snoc).
    reflexivity.
Qed.

(** ** The statements at concrete inputs *)

Lemma C3_witness :
  exists b,
    ActivityPrompt.onDialogEvent Sample.plain Sample.recognizeStop (DC.new 0 ∅)
      {| name := "consultDialog"; value := VUndefined |}
      {| stack := [] ++ [Sample.promptFrame]; context := Sample.turn Sample.stop |}
    = Ok (b, {| stack := [] ++ [Sample.promptFrame];
                context := Sample.turn Sample.stop |})
    /\ (b = true <-> true = true /\ false = false).
Proof.
  apply (C3_consult_reports_should_process Sample.plain Sample.recognizeStop
           (DC.new 0 ∅) {| name := "consultDialog"; value := VUndefined |}
           [] Sample.promptFrame (Sample.turn Sample.stop)
           {| ActivityPrompt.succeeded := true;
              ActivityPrompt.value := VString "stop";
              ActivityPrompt.allowInterruption := false |}
           (Sample.turn Sample.stop)); reflexivity.
Defined.

Lemma C1_witness :
  ComponentDialog.endDialog 0 (Sample.reporting 0) Sample.twoChildren
    Sample.componentFrame cancelCalled (Sample.turn Sample.hello)
  = (endEach (ComponentDialog.dialogs Sample.twoChildren)
       [Build_DialogInstance "second" ∅; Build_DialogInstance "first" ∅] ;;;
     ComponentDialog.onEndDialog (Sample.reporting 0) Sample.twoChildren
       (ComponentDialog.setInnerStack [] Sample.componentFrame) cancelCalled)
      (Sample.turn Sample.hello)
  /\ ComponentDialog.endDialog 0 (Sample.reporting 0) Sample.twoChildren
       Sample.componentFrame endCalled (Sample.turn Sample.hello)
     = ComponentDialog.onEndDialog (Sample.reporting 0) Sample.twoChildren
         Sample.componentFrame endCalled (Sample.turn Sample.hello).
Proof.
  split.
  - apply (proj1 C1_cancel_ends_inner_frames_before_cleanup 0 (Sample.reporting 0)
             Sample.twoChildren Sample.componentFrame
             (Some [Build_DialogInstance "first" ∅; Build_DialogInstance "second" ∅])
             (Sample.turn Sample.hello)).
    reflexivity.
  - apply (proj2 C1_cancel_ends_inner_frames_before_cleanup 0 (Sample.reporting 0)
             Sample.twoChildren Sample.componentFrame endCalled
             (Sample.turn Sample.hello)).
    discriminate.
Defined.

(** The outputs of the cancellation above, in the order they were sent:
    the two inner frames from the top down, then the cleanup hook. *)
Example cancel_cascade_order :
  match ComponentDialog.endDialog 0 (Sample.reporting 0) Sample.twoChildren
          Sample.componentFrame cancelCalled (Sample.turn Sample.hello) with
  | Ok (instance, ctx) =>
      content <$> sent ctx = [PText "cancel second"; PText "cancel first"; PText "cleanup"]
      /\ ComponentDialog.innerStack instance = []
  | Throw _ => False
  end.
Proof. vm_compute. split; reflexivity. Qed.

Lemma C9_witness :
  exists s',
    ActivityPrompt.continueDialog Sample.isEvent ActivityPrompt.onRecognize
      (DC.new 0 ∅) (Sample.prompting Sample.hello) = Ok (EndOfTurn, s')
    /\ stack s' = stack (Sample.prompting Sample.hello)
    /\ length (stack s') = length (stack (Sample.prompting Sample.hello))
    /\ DC.dialog_get "options" s' = Ok (VOptions Sample.askName, s')
    /\ DC.dialog_get "options" (Sample.prompting Sample.hello)
       = Ok (VOptions Sample.askName, Sample.prompting Sample.hello)
    /\ objects (context s') = objects (Sample.turn Sample.hello).
Proof.
  apply (C9_retry_keeps_stack_and_options Sample.isEvent ActivityPrompt.onRecognize
           (DC.new 0 ∅) [] Sample.promptFrame (Sample.turn Sample.hello)
           Sample.askName (Sample.recognizedActivity Sample.hello)
           (Sample.turn Sample.hello) (Sample.turn Sample.hello));
    reflexivity.
Defined.

Lemma C6_witness :
  let scope := StateMap.set ActivityPrompt.PERSISTED_STATE (VObject ∅)
                 (StateMap.set ActivityPrompt.PERSISTED_OPTIONS (VOptions Sample.askName)
                    (state (Sample.fresh "namePrompt"))) in
  ActivityPrompt.beginDialog (DC.new 0 ∅) Sample.askName
    {| stack := [] ++ [Sample.fresh "namePrompt"]; context := Sample.turn Sample.hello |}
  = Ok (EndOfTurn,
        {| stack := [] ++ [Build_DialogInstance (id (Sample.fresh "namePrompt")) scope];
           context := emit (initialOutputs Sample.askName)
                        (hintedContext Sample.askName (Sample.turn Sample.hello)) |})
  /\ StateMap.get scope "options" = VOptions Sample.askName
  /\ StateMap.get scope "state" = VObject ∅
  /\ (forall key, key <> "options" -> key <> "state" ->
                  scope !! key = state (Sample.fresh "namePrompt") !! key)
  /\ status EndOfTurn = waiting.
Proof.
  apply (C6_beginDialog_stores_options_and_prompts (DC.new 0 ∅) Sample.askName []
           (Sample.fresh "namePrompt") (Sample.turn Sample.hello)).
Defined.

(** The first turn of the scenario of §8: the prompt sends "Name?". *)
Example beginDialog_sends_initial_prompt :
  match ActivityPrompt.beginDialog (DC.new 0 ∅) Sample.askName
          {| stack := [Sample.fresh "namePrompt"];
             context := Sample.turn Sample.hello |} with
  | Ok (r, dc) =>
      status r = waiting
      /\ content <$> sent (context dc) = [PText "Name?"]
      /\ stack dc = [Sample.promptFrame]
  | Throw _ => False
  end.
Proof. vm_compute. repeat split. Qed.

(** The options are stored as they were passed and the input hint is
    written into the activity object they share with the caller. *)
Example beginDialog_hints_the_shared_activity :
  match ActivityPrompt.beginDialog (DC.new 0 ∅) Sample.askCard
          {| stack := [Sample.fresh "cardPrompt"]; context := Sample.turnWithCard |} with
  | Ok (_, dc) =>
      DC.dialog_get "options" dc = Ok (VOptions Sample.askCard, dc)
      /\ inputHint <$> objects (context dc) !! 0 = Some (Some ExpectingInput)
      /\ content <$> sent (context dc) = [PActivity 0]
  | Throw _ => False
  end.
Proof. vm_compute. repeat split. Qed.

(** A retry turn after the prompt has been begun: the frame and its
    options stay, the retry prompt goes out. *)
Example retry_turn_after_beginDialog :
  match ActivityPrompt.beginDialog (DC.new 0 ∅) Sample.askName
          {| stack := [Sample.fresh "namePrompt"];
             context := Sample.turn Sample.signedIn |} with
  | Ok (_, begun) =>
      match ActivityPrompt.continueDialog Sample.isEvent ActivityPrompt.onRecognize
              (DC.new 1 Sample.prompts)
              {| stack := stack begun; context := Sample.turn Sample.hello |} with
      | Ok (r, retried) =>
          status r = waiting
          /\ stack retried = stack begun
          /\ content <$> sent (context retried) = [PText "Please answer."]
      | Throw _ => False
      end
  | Throw _ => False
  end.
Proof. vm_compute. repeat split. Qed.

Lemma C5_witness :
  ActivityPrompt.continueDialog Sample.isEvent ActivityPrompt.onRecognize
    (DC.new 1 Sample.prompts) (Sample.prompting Sample.signedIn)
  = Ok ({| status := complete; result := VActivity Sample.signedIn |},
        {| stack := []; context := Sample.turn Sample.signedIn |})
  /\ ActivityPrompt.continueDialog Sample.isEvent ActivityPrompt.onRecognize
       (DC.new 1 Sample.prompts) (Sample.prompting Sample.hello)
     = Ok (EndOfTurn,
           {| stack := [] ++ [Sample.promptFrame];
              context := emit [promptOutput (PText "Please answer.")]
                           (Sample.turn Sample.hello) |}).
Proof.
  split.
  - destruct (C5_continueDialog_ends_or_reprompts Sample.isEvent
                ActivityPrompt.onRecognize (DC.new 1 Sample.prompts) []
                Sample.promptFrame (Sample.turn Sample.signedIn) Sample.askName
                (Sample.recognizedActivity Sample.signedIn)
                (Sample.turn Sample.signedIn) true (Sample.turn Sample.signedIn)
                eq_refl eq_refl eq_refl) as (_ & Hends & _).
    destruct (Hends eq_refl 0 Sample.prompts Sample.namePrompt Sample.promptFrame
                (Sample.turn Sample.signedIn) eq_refl eq_refl) as [Hlast _].
    exact (Hlast eq_refl).
  - destruct (C5_continueDialog_ends_or_reprompts Sample.isEvent
                ActivityPrompt.onRecognize (DC.new 1 Sample.prompts) []
                Sample.promptFrame (Sample.turn Sample.hello) Sample.askName
                (Sample.recognizedActivity Sample.hello)
                (Sample.turn Sample.hello) false (Sample.turn Sample.hello)
                eq_refl eq_refl eq_refl) as (_ & _ & Hrejects).
    exact (Hrejects eq_refl).
Defined.

Lemma C4_witness :
  ActivityPrompt.resumeDialog (DC.new 0 ∅) cancelCalled (VString "ignored")
    (Sample.prompting Sample.hello)
  = Ok (EndOfTurn,
        {| stack := [] ++ [Sample.promptFrame];
           context := emit (retryOutputs Sample.askName) (Sample.turn Sample.hello) |})
  /\ ComponentDialog.resumeDialog 0 (Sample.reporting 0) Sample.twoChildren
       (DC.new 0 ∅) endCalled (VString "ignored") Sample.inComponent
     = Ok (EndOfTurn,
           {| stack := [] ++ [Sample.componentFrame];
              context := Sample.said "component reprompt"
                           (Sample.said "reprompt second"
                              (Sample.turn Sample.hello)) |}).
Proof.
  split.
  - apply (proj1 C4_resumeDialog_reprompts_and_waits (DC.new 0 ∅) cancelCalled
             (VString "ignored") [] Sample.promptFrame Sample.askName
             (Sample.turn Sample.hello)).
    reflexivity.
  - apply (proj2 C4_resumeDialog_reprompts_and_waits 0 (Sample.reporting 0)
             Sample.twoChildren (DC.new 0 ∅) endCalled (VString "ignored") []
             Sample.componentFrame
             (Some [Build_DialogInstance "first" ∅; Build_DialogInstance "second" ∅])
             (Sample.turn Sample.hello)
             {| stack := [Build_DialogInstance "first" ∅; Build_DialogInstance "second" ∅];
                context := Sample.said "reprompt second" (Sample.turn Sample.hello) |}
             Sample.componentFrame
             (Sample.said "component reprompt"
                (Sample.said "reprompt second" (Sample.turn Sample.hello))));
      reflexivity.
Defined.

Lemma C2_witness :
  ComponentDialog.beginDialog (ComponentDialog.base 1) Sample.cancelling
    (DC.new 1 Sample.outerDialogs) VUndefined Sample.inCancelling
  = ComponentDialog.endComponent (ComponentDialog.base 1) Sample.cancelling
      (DC.new 1 Sample.outerDialogs) VUndefined
      {| stack := [ComponentDialog.setInnerStack [] Sample.cancellingFrame];
         context := Sample.turn Sample.hello |}.
Proof.
  refine (proj1 (C2_beginDialog_ends_component_unless_waiting
                   (ComponentDialog.base 1) Sample.cancelling
                   (DC.new 1 Sample.outerDialogs) VUndefined Sample.inCancelling
                   (Some {| stack := [Build_DialogInstance "start" ∅];
                            context := Sample.turn Sample.hello |})
                   Sample.inCancelling
                   {| status := cancelled; result := VUndefined |}
                   {| stack := [ComponentDialog.setInnerStack [] Sample.cancellingFrame];
                      context := Sample.turn Sample.hello |}
                   _ _) _).
  - reflexivity.
  - reflexivity.
  - discriminate.
Defined.

(** C2 as it is stated fails: the inner start yields a cancelled result,
    which is not complete, yet the component does not return the waiting
    outcome with its frame left on the stack; it ends through the outer
    context, which pops the frame and completes. *)
Lemma C2_counterexample :
  exists innerDC s1 r s2,
    ComponentDialog.createChildContext Sample.inCancelling = Ok (innerDC, s1)
    /\ ComponentDialog.onInnerDC innerDC
         (ComponentDialog.onBeginDialog (ComponentDialog.base 1)
            Sample.cancelling VUndefined) s1 = Ok (r, s2)
    /\ status r <> complete
    /\ ComponentDialog.beginDialog (ComponentDialog.base 1) Sample.cancelling
         (DC.new 1 Sample.outerDialogs) VUndefined Sample.inCancelling
       <> Ok (EndOfTurn, s2)
    /\ ComponentDialog.beginDialog (ComponentDialog.base 1) Sample.cancelling
         (DC.new 1 Sample.outerDialogs) VUndefined Sample.inCancelling
       = Ok ({| status := complete; result := VUndefined |},
             {| stack := []; context := Sample.turn Sample.hello |}).
Proof.
  exists (Some {| stack := [Build_DialogInstance "start" ∅];
                  context := Sample.turn Sample.hello |}),
         Sample.inCancelling,
         {| status := cancelled; result := VUndefined |},
         {| stack := [ComponentDialog.setInnerStack [] Sample.cancellingFrame];
            context := Sample.turn Sample.hello |}.
  split; [reflexivity|]. split; [reflexivity|]. split; [discriminate|].
  split; [|reflexivity].
  intros H. vm_compute in H. discriminate H.
Qed.

Lemma C7_witness :
  exists c,
    ComponentDialog.consultDialog (ComponentDialog.base 1) Sample.twoChildren
      (DC.new 0 ∅) Sample.inComponent = Ok (c, Sample.inComponent)
    /\ (forall i, @None DialogConsultation = Some i -> desire c = desire i)
    /\ (@None DialogConsultation = None -> desire c = canProcess)
    /\ processor c
       = (innerDC <- ComponentDialog.captured
                       (Some {| stack := [Build_DialogInstance "first" ∅;
                                          Build_DialogInstance "second" ∅];
                                context := Sample.turn Sample.hello |}) ;;
          ComponentDialog.onInnerDC innerDC
            (ComponentDialog.onContinueDialog (ComponentDialog.base 1)
               Sample.twoChildren None)).
Proof.
  apply (C7_consultDialog_surfaces_inner_priority (ComponentDialog.base 1)
           Sample.twoChildren (DC.new 0 ∅) Sample.inComponent
           (Some {| stack := [Build_DialogInstance "first" ∅;
                              Build_DialogInstance "second" ∅];
                    context := Sample.turn Sample.hello |})
           Sample.inComponent None Sample.inComponent); reflexivity.
Defined.

Lemma consultDialog_inComponent :
  exists c,
    ComponentDialog.consultDialog (ComponentDialog.base 1) Sample.twoChildren
      (DC.new 0 ∅) Sample.inComponent = Ok (c, Sample.inComponent)
    /\ desire c = canProcess.
Proof. eexists. split; [reflexivity|reflexivity]. Qed.

(** C7 as it is stated fails: the inner stack produces no consultation,
    and the consultation the component returns has priority can-process,
    which is not what an absent consultation stands for. *)
Lemma C7_counterexample :
  exists innerDC s1 s2 c,
    ComponentDialog.createChildContext Sample.inComponent = Ok (innerDC, s1)
    /\ ComponentDialog.onInnerDC innerDC
         (ComponentDialog.onConsultDialog (ComponentDialog.base 1) Sample.twoChildren)
         s1 = Ok (None, s2)
    /\ ComponentDialog.consultDialog (ComponentDialog.base 1) Sample.twoChildren
         (DC.new 0 ∅) Sample.inComponent = Ok (c, s2)
    /\ interest (Some c) = canProcess
    /\ interest (Some c) <> interest None.
Proof.
  destruct consultDialog_inComponent as (c & Hc & Hd).
  exists (Some {| stack := [Build_DialogInstance "first" ∅;
                            Build_DialogInstance "second" ∅];
                  context := Sample.turn Sample.hello |}),
         Sample.inComponent, Sample.inComponent, c.
  split; [reflexivity|]. split; [reflexivity|]. split; [exact Hc|].
  simpl. rewrite Hd. split; [reflexivity|discriminate].
Qed.

(** * Further properties of the two classes *)

(** ** What a prompt sends *)


Lemma withContext_Throw {A} (m : M TurnContext A) st ctx e :
  m ctx = Throw e ->
  DC.withContext m {| stack := st; context := ctx |} = Throw e.
Proof. unfold DC.withContext. simpl. intros ->. reflexivity. Qed.

Lemma onPrompt_undefined state isRetry ctx :
  ActivityPrompt.onPrompt state VUndefined isRetry ctx
  = Throw (TypeError "Cannot read properties of undefined").
Proof. reflexivity. Qed.

Lemma get_undefined_options instance :
  StateMap.get (state instance) "options" = VUndefined ->
  StateMap.get (state instance) ActivityPrompt.PERSISTED_OPTIONS = VUndefined.
Proof. done. Qed.

(** X2.  A prompt frame that holds no options (it was never begun) cannot
    re-prompt: [repromptDialog] and [resumeDialog] throw a TypeError.
    [continueDialog] throws it too when the validator rejects a message on
    a turn not yet responded to; on any other rejected turn it reads no
    option and returns the waiting outcome. *)
Theorem prompt_without_options_cannot_reprompt instance :
  StateMap.get (state instance) "options" = VUndefined ->
  (forall ctx,
      ActivityPrompt.repromptDialog instance ctx
      = Throw (TypeError "Cannot read properties of undefined"))
  /\ (forall dc reason result rest ctx,
         ActivityPrompt.resumeDialog dc reason result
           {| stack := rest ++ [instance]; context := ctx |}
         = Throw (TypeError "Cannot read properties of undefined"))
  /\ (forall validator recognize dc rest ctx r ctx1 ctx2,
         recognize (StateMap.get (state instance) "state") VUndefined ctx
         = Ok (r, ctx1) ->
         validator {| ActivityPrompt.recognized := r;
                      ActivityPrompt.validatorState :=
                        StateMap.get (state instance) "state";
                      ActivityPrompt.options := VUndefined |} ctx1
         = Ok (false, ctx2) ->
         ActivityPrompt.continueDialog validator recognize dc
           {| stack := rest ++ [instance]; context := ctx |}
         = if bool_decide (type (activity ctx2) = Message) && negb (responded ctx2)
           then Throw (TypeError "Cannot read properties of undefined")
           else Ok (EndOfTurn, {| stack := rest ++ [instance]; context := ctx2 |})).
Proof.
  intros Ho. apply get_undefined_options in Ho.
  assert (Hre : forall ctx,
      ActivityPrompt.repromptDialog instance ctx
      = Throw (TypeError "Cannot read properties of undefined")).
  { intros ctx. unfold ActivityPrompt.repromptDialog. rewrite Ho.
    stop by apply onPrompt_undefined. reflexivity. }
  split; [exact Hre|]. split.
  - intros. unfold ActivityPrompt.resumeDialog.
    step by (unfold gets; by rewrite activeDialog_snoc).
    stop by (apply withContext_Throw, Hre). reflexivity.
  - intros validator recognize dc rest ctx r ctx1 ctx2 Hr Hv.
    rewrite (continueDialog_validated validator recognize dc rest instance ctx r ctx1
               false ctx2); rewrite ?Ho; try assumption.
    destruct (bool_decide (type (activity ctx2) = Message) && negb (responded ctx2)).
    + stop by (apply withContext_Throw, onPrompt_undefined). reflexivity.
    + reflexivity.
Qed.

Lemma prompt_without_options_witness :
  (forall ctx,
      ActivityPrompt.repromptDialog (Sample.fresh "namePrompt") ctx
      = Throw (TypeError "Cannot read properties of undefined"))
  /\ ActivityPrompt.resumeDialog (DC.new 0 ∅) endCalled VUndefined
       {| stack := [] ++ [Sample.fresh "namePrompt"];
          context := Sample.turn Sample.hello |}
     = Throw (TypeError "Cannot read properties of undefined")
  /\ ActivityPrompt.continueDialog Sample.isEvent ActivityPrompt.onRecognize (DC.new 0 ∅)
       {| stack := [] ++ [Sample.fresh "namePrompt"];
          context := Sample.turn Sample.hello |}
     = Throw (TypeError "Cannot read properties of undefined").
Proof.
  destruct (prompt_without_options_cannot_reprompt (Sample.fresh "namePrompt") eq_refl)
    as (Hre & Hres & Hcont).
  split; [exact Hre|]. split; [apply Hres|].
  exact (Hcont Sample.isEvent ActivityPrompt.onRecognize (DC.new 0 ∅) []
           (Sample.turn Sample.hello) (Sample.recognizedActivity Sample.hello)
           (Sample.turn Sample.hello) (Sample.turn Sample.hello) eq_refl eq_refl).
Defined.

(** ** Input hints *)

Lemma withInputHint_idempotent a :
  ActivityPrompt.withInputHint (ActivityPrompt.withInputHint a)
  = ActivityPrompt.withInputHint a.
Proof. destruct a as [t x [h|]]; reflexivity. Qed.

Lemma hinted_lookup p objs l :
  hinted p objs !! l
  = if bool_decide (p = Some (PActivity l))
    then ActivityPrompt.withInputHint <$> objs !! l
    else objs !! l.
Proof.
  unfold hinted. case_bool_decide as Hp.
  - subst p. apply lookup_alter_eq.
  - destruct p as [[s|l']|]; try reflexivity.
    apply lookup_alter_ne. congruence.
Qed.

(** [beginDialog] on an active frame, in full. *)
Lemma beginDialog_run dc options rest instance ctx :
  ActivityPrompt.beginDialog dc options
    {| stack := rest ++ [instance]; context := ctx |}
  = Ok (EndOfTurn,
        {| stack := rest ++ [begun options instance];
           context := emit (initialOutputs options) (hintedContext options ctx) |}).
Proof.
  unfold ActivityPrompt.beginDialog, begun.
  step by (apply withContext_Ok, ensureInputHint_run).
  step by (apply withContext_Ok, ensureInputHint_run).
  step by apply dialog_set_snoc.
  step by apply dialog_set_snoc.
  step by apply dialog_get_snoc.
  step by apply dialog_get_snoc.
  simpl.
  erewrite bind_Ok; [reflexivity|].
  apply withContext_Ok. rewrite scope_get_options. apply onPrompt_first.
Qed.

Lemma emit_objects outs c : objects (emit outs c) = objects c.
Proof. by destruct outs. Qed.

(** X3.  [beginDialog] gives the input hint [ExpectingInput] to exactly
    the activity objects that the prompt or the retry prompt refer to and
    that have no input hint yet.  An input hint that is already there, the
    type and the text of those activities, and every other activity object
    stay as they are; text prompts touch no object at all. *)
Theorem beginDialog_sets_only_missing_input_hints dc options rest instance ctx :
  exists s',
    ActivityPrompt.beginDialog dc options
      {| stack := rest ++ [instance]; context := ctx |} = Ok (EndOfTurn, s')
    /\ (forall l,
           prompt options = Some (PActivity l)
           \/ retryPrompt options = Some (PActivity l) ->
           objects (context s') !! l
           = ActivityPrompt.withInputHint <$> objects ctx !! l)
    /\ (forall l,
           prompt options <> Some (PActivity l) ->
           retryPrompt options <> Some (PActivity l) ->
           objects (context s') !! l = objects ctx !! l)
    /\ (forall a,
           type (ActivityPrompt.withInputHint a) = type a
           /\ text (ActivityPrompt.withInputHint a) = text a
           /\ inputHint (ActivityPrompt.withInputHint a)
              = Some (default ExpectingInput (inputHint a))).
Proof.
  eexists. split; [apply beginDialog_run|]. simpl.
  rewrite emit_objects. simpl. repeat split.
  - intros l Hl. rewrite !hinted_lookup.
    repeat case_bool_decide; try reflexivity.
    + rewrite <- option_fmap_compose.
      apply option_fmap_ext. intros a. apply withInputHint_idempotent.
    + tauto.
  - intros l Hp Hr. rewrite !hinted_lookup.
    by rewrite !bool_decide_eq_false_2.
  - by destruct a as [t x [h|]].
  - by destruct a as [t x [h|]].
  - by destruct a as [t x [h|]].
Qed.

Lemma beginDialog_input_hints_witness :
  exists s',
    ActivityPrompt.beginDialog (DC.new 0 ∅) Sample.askCard
      {| stack := [] ++ [Sample.fresh "cardPrompt"]; context := Sample.turnWithCard |}
    = Ok (EndOfTurn, s')
    /\ objects (context s') !! 0
       = Some {| type := Message; text := "Your card?";
                 inputHint := Some ExpectingInput |}
    /\ objects (context s') !! 1 = None.
Proof.
  destruct (beginDialog_sets_only_missing_input_hints (DC.new 0 ∅) Sample.askCard []
              (Sample.fresh "cardPrompt") Sample.turnWithCard)
    as (s' & Hrun & Hin & Hout & _).
  exists s'. split; [exact Hrun|]. split.
  - refine (eq_trans (Hin 0 (or_introl eq_refl)) _). reflexivity.
  - refine (eq_trans (Hout 1 _ _) _); [discriminate|discriminate|reflexivity].
Defined.

(** ** Beginning a prompt and the turns after *)

Lemma begun_options o instance :
  state (begun o instance) !! "options" = Some (VOptions o).
Proof.
  unfold begun, StateMap.set, ActivityPrompt.PERSISTED_STATE,
    ActivityPrompt.PERSISTED_OPTIONS. simpl.
  rewrite lookup_insert_ne by discriminate. by rewrite lookup_insert_eq.
Qed.

Lemma begun_state o instance :
  StateMap.get (state (begun o instance)) ActivityPrompt.PERSISTED_STATE = VObject ∅.
Proof. unfold begun. simpl. apply scope_get_state. Qed.

(** X4.  [beginDialog] leaves the frame ready for the turns that follow,
    whatever the options are: a later [resumeDialog] re-prompts without
    error, and a later [continueDialog] hands the recognizer and the
    validator the empty state object and the options that were stored, and
    on rejection re-prompts from those options. *)
Theorem beginDialog_makes_the_frame_repromptable dc options rest instance ctx :
  exists ctx1,
    ActivityPrompt.beginDialog dc options
      {| stack := rest ++ [instance]; context := ctx |}
    = Ok (EndOfTurn,
          {| stack := rest ++ [begun options instance]; context := ctx1 |})
    /\ (forall dc' reason result ctx',
           ActivityPrompt.resumeDialog dc' reason result
             {| stack := rest ++ [begun options instance]; context := ctx' |}
           = Ok (EndOfTurn,
                 {| stack := rest ++ [begun options instance];
                    context := emit (retryOutputs options) ctx' |}))
    /\ (forall validator recognize dc' ctx' r ctx1' ctx2',
           recognize (VObject ∅) (VOptions options) ctx' = Ok (r, ctx1') ->
           validator {| ActivityPrompt.recognized := r;
                        ActivityPrompt.validatorState := VObject ∅;
                        ActivityPrompt.options := VOptions options |} ctx1'
           = Ok (false, ctx2') ->
           ActivityPrompt.continueDialog validator recognize dc'
             {| stack := rest ++ [begun options instance]; context := ctx' |}
           = Ok (EndOfTurn,
                 {| stack := rest ++ [begun options instance];
                    context := if bool_decide (type (activity ctx2') = Message)
                                  && negb (responded ctx2')
                               then emit (retryOutputs options) ctx2'
                               else ctx2' |})).
Proof.
  eexists. split; [apply beginDialog_run|]. split.
  - intros. apply ActivityPrompt_resumeDialog, begun_options.
  - intros validator recognize dc' ctx' r ctx1' ctx2' Hr Hv.
    apply continueDialog_rejected with (r := r) (ctx1 := ctx1');
      rewrite ?begun_state; [apply begun_options|assumption|assumption].
Qed.

Lemma beginDialog_repromptable_witness :
  ActivityPrompt.continueDialog Sample.isEvent ActivityPrompt.onRecognize (DC.new 0 ∅)
    {| stack := [] ++ [begun Sample.askName (Sample.fresh "namePrompt")];
       context := Sample.turn Sample.hello |}
  = Ok (EndOfTurn,
        {| stack := [] ++ [begun Sample.askName (Sample.fresh "namePrompt")];
           context := emit [promptOutput (PText "Please answer.")]
                        (Sample.turn Sample.hello) |}).
Proof.
  destruct (beginDialog_makes_the_frame_repromptable (DC.new 0 ∅) Sample.askName []
              (Sample.fresh "namePrompt") (Sample.turn Sample.hello))
    as (ctx1 & _ & _ & Hcont).
  exact (Hcont Sample.isEvent ActivityPrompt.onRecognize (DC.new 0 ∅)
           (Sample.turn Sample.hello) (Sample.recognizedActivity Sample.hello)
           (Sample.turn Sample.hello) (Sample.turn Sample.hello) eq_refl eq_refl).
Defined.

(** ** The registry and the entry point of a component *)

(** X5.  After any sequence of [addDialog] calls the entry point of a
    component is the identifier it was assigned beforehand, and otherwise
    the identifier of the first dialog added; with nothing assigned and
    nothing added it stays undefined, and no later [addDialog] changes it. *)
Theorem addDialog_entry_point_is_assigned_or_first (added : list Dialog.t) this :
  ComponentDialog.initialDialogId
    (foldl (fun this dialog => ComponentDialog.addDialog dialog this) this added)
  = match ComponentDialog.initialDialogId this with
    | Some dialogId => Some dialogId
    | None => Dialog.id <$> head added
    end.
Proof.
  revert this. induction added as [|d added IH]; intros this; simpl.
  - by destruct (ComponentDialog.initialDialogId this).
  - rewrite IH, addDialog_initialDialogId.
    by destruct (ComponentDialog.initialDialogId this).
Qed.

(** ** The inner context of a component *)

Lemma instance_eta instance : Build_DialogInstance (id instance) (state instance) = instance.
Proof. by destruct instance. Qed.

Lemma setInnerStack_same l instance :
  state instance !! "dialogs" = Some (VDialogState (Some l)) ->
  ComponentDialog.setInnerStack l instance = instance.
Proof.
  intros Hs. unfold ComponentDialog.setInnerStack, ComponentDialog.PERSISTED_DIALOG_STATE.
  rewrite insert_id by done. apply instance_eta.
Qed.

Lemma innerStack_setInnerStack l instance :
  ComponentDialog.innerStack (ComponentDialog.setInnerStack l instance) = l.
Proof.
  unfold ComponentDialog.innerStack, ComponentDialog.setInnerStack. simpl.
  by rewrite lookup_insert_eq.
Qed.

Lemma createInnerDC_inv ctx instance child instance' :
  ComponentDialog.createInnerDC ctx instance = Ok (child, instance') ->
  exists ds,
    state instance !! "dialogs" = Some (VDialogState ds)
    /\ child = {| stack := default [] ds; context := ctx |}
    /\ instance' = ComponentDialog.setInnerStack (default [] ds) instance.
Proof.
  unfold ComponentDialog.createInnerDC, ComponentDialog.PERSISTED_DIALOG_STATE.
  destruct (state instance !! "dialogs") as [[| | | | | |ds]|]; try discriminate.
  intros [= <- <-]. eauto.
Qed.

Lemma createInnerDC_undefined ctx instance :
  StateMap.get (state instance) "dialogs" = VUndefined ->
  ComponentDialog.createInnerDC ctx instance
  = Throw (TypeError "Cannot read properties of undefined (reading 'dialogStack')").
Proof.
  unfold StateMap.get, ComponentDialog.createInnerDC,
    ComponentDialog.PERSISTED_DIALOG_STATE.
  destruct (state instance !! "dialogs") as [[| | | | | |ds]|]; simpl;
    try discriminate; reflexivity.
Qed.

(** X6.  [createInnerDC] touches nothing of a frame but
    [state.dialogs.dialogStack]: the identifier and every other key stay, the
    inner context runs on the persisted stack and on the turn context it was
    given, a stack that is an array already leaves the frame exactly as it
    was, and creating the inner context a second time changes nothing. *)
Theorem createInnerDC_only_normalises_the_inner_stack ctx instance child instance' :
  ComponentDialog.createInnerDC ctx instance = Ok (child, instance') ->
  id instance' = id instance
  /\ (forall key, key <> "dialogs" -> state instance' !! key = state instance !! key)
  /\ state instance' !! "dialogs" = Some (VDialogState (Some (stack child)))
  /\ stack child = ComponentDialog.innerStack instance
  /\ context child = ctx
  /\ (forall l, state instance !! "dialogs" = Some (VDialogState (Some l)) ->
                instance' = instance)
  /\ ComponentDialog.createInnerDC ctx instance' = Ok (child, instance').
Proof.
  intros Hc. destruct (createInnerDC_inv _ _ _ _ Hc) as (ds & Hs & -> & ->).
  simpl. repeat split.
  - intros key Hk. unfold ComponentDialog.PERSISTED_DIALOG_STATE.
    by rewrite lookup_insert_ne.
  - apply lookup_insert_eq.
  - unfold ComponentDialog.innerStack, ComponentDialog.PERSISTED_DIALOG_STATE.
    rewrite Hs. by destruct ds.
  - intros l Hl. rewrite Hs in Hl. injection Hl as ->. simpl.
    by apply setInnerStack_same.
  - rewrite (createInnerDC_Ok _ _ (Some (default [] ds))).
    + simpl. by rewrite setInnerStack_twice.
    + apply lookup_insert_eq.
Qed.

Lemma createInnerDC_witness :
  state Sample.componentFrame !! "dialogs"
  = Some (VDialogState (Some [Build_DialogInstance "first" ∅;
                              Build_DialogInstance "second" ∅]))
  /\ ComponentDialog.createInnerDC (Sample.turn Sample.hello) Sample.componentFrame
     = Ok ({| stack := [Build_DialogInstance "first" ∅; Build_DialogInstance "second" ∅];
              context := Sample.turn Sample.hello |}, Sample.componentFrame).
Proof.
  destruct (createInnerDC_only_normalises_the_inner_stack (Sample.turn Sample.hello)
              Sample.componentFrame
              {| stack := [Build_DialogInstance "first" ∅;
                           Build_DialogInstance "second" ∅];
                 context := Sample.turn Sample.hello |}
              Sample.componentFrame eq_refl) as (_ & _ & Hstate & _ & _ & _ & Hagain).
  split; [exact Hstate|exact Hagain].
Defined.

(** X7.  [createChildContext] hands out a child context exactly when the
    persisted inner stack is not empty, and then the child runs on that
    stack and on the parent's turn context; the parent keeps its frames, the
    active one with its inner stack made an array.  Without an active frame,
    or with a frame that holds no inner state, it throws a TypeError. *)
Theorem createChildContext_is_defined_iff_inner_stack_nonempty :
  (forall rest instance ds ctx,
      state instance !! "dialogs" = Some (VDialogState ds) ->
      exists child,
        ComponentDialog.createChildContext
          {| stack := rest ++ [instance]; context := ctx |}
        = Ok (child,
              {| stack := rest ++ [ComponentDialog.setInnerStack (default [] ds) instance];
                 context := ctx |})
        /\ (child = None <-> default [] ds = [])
        /\ (forall c, child = Some c -> stack c = default [] ds /\ context c = ctx))
  /\ (forall ctx,
         ComponentDialog.createChildContext {| stack := []; context := ctx |}
         = Throw (TypeError "Cannot read properties of undefined (reading 'state')"))
  /\ (forall rest instance ctx,
         StateMap.get (state instance) "dialogs" = VUndefined ->
         ComponentDialog.createChildContext
           {| stack := rest ++ [instance]; context := ctx |}
         = Throw (TypeError
                    "Cannot read properties of undefined (reading 'dialogStack')")).
Proof.
  split; [|split].
  - intros rest instance ds ctx Hs. eexists. split; [by apply createChildContext_Ok|].
    destruct (default [] ds) as [|x l]; simpl.
    + split; [done|]. intros c Hc. discriminate Hc.
    + split; [split; discriminate|]. by intros c [= <-].
  - reflexivity.
  - intros rest instance ctx Hs. unfold ComponentDialog.createChildContext.
    rewrite activeDialog_snoc. simpl. by rewrite createInnerDC_undefined.
Qed.

Lemma createChildContext_witness :
  (exists child,
      ComponentDialog.createChildContext Sample.inComponent
      = Ok (child, Sample.inComponent)
      /\ child <> None)
  /\ ComponentDialog.createChildContext
       {| stack := [] ++ [Sample.fresh "profile"]; context := Sample.turn Sample.hello |}
     = Throw (TypeError "Cannot read properties of undefined (reading 'dialogStack')").
Proof.
  destruct createChildContext_is_defined_iff_inner_stack_nonempty as (Hsome & _ & Hnone).
  split.
  - destruct (Hsome [] Sample.componentFrame
                (Some [Build_DialogInstance "first" ∅; Build_DialogInstance "second" ∅])
                (Sample.turn Sample.hello) eq_refl) as (child & Hrun & Hiff & _).
    exists child. split; [exact Hrun|].
    intros Hc. apply Hiff in Hc. discriminate Hc.
  - apply Hnone. reflexivity.
Defined.

(** ** Cancelling and re-prompting a component *)

Lemma endDialog_cancel_base fuel this instance ds ctx :
  state instance !! "dialogs" = Some (VDialogState ds) ->
  ComponentDialog.endDialog fuel (ComponentDialog.base fuel) this instance cancelCalled ctx
  = match endEach (ComponentDialog.dialogs this) (rev (default [] ds)) ctx with
    | Ok (_, ctx') => Ok (ComponentDialog.setInnerStack [] instance, ctx')
    | Throw e => Throw e
    end.
Proof.
  intros Hs. unfold ComponentDialog.endDialog. simpl.
  unfold bind at 1. unfold bind at 1.
  rewrite (onInner_run _ _ _ _ Hs), new_cancelAllDialogs, cancelAllDialogs_endEach.
  destruct (endEach _ _ ctx) as [[[] ctx']|e]; reflexivity.
Qed.

(** X8.  Cancelling a component is idempotent: once [endDialog] with
    reason cancelled has returned, the frame holds an empty inner stack, and
    cancelling that frame again on any turn ends no inner frame, sends
    nothing and returns the frame as it is. *)
Theorem endDialog_cancel_is_idempotent fuel this instance ctx cancelledFrame ctx1 :
  ComponentDialog.endDialog fuel (ComponentDialog.base fuel) this instance cancelCalled ctx
  = Ok (cancelledFrame, ctx1) ->
  ComponentDialog.innerStack cancelledFrame = []
  /\ id cancelledFrame = id instance
  /\ forall ctx2,
       ComponentDialog.endDialog fuel (ComponentDialog.base fuel) this cancelledFrame
         cancelCalled ctx2
       = Ok (cancelledFrame, ctx2).
Proof.
  intros Hend.
  destruct (state instance !! "dialogs") as [v|] eqn:Hs.
  2:{ unfold ComponentDialog.endDialog in Hend. simpl in Hend.
      unfold bind at 1 in Hend. unfold bind at 1 in Hend.
      unfold ComponentDialog.onInner in Hend.
      rewrite createInnerDC_undefined in Hend by (unfold StateMap.get; by rewrite Hs).
      discriminate Hend. }
  destruct v as [| | | | | |ds];
    try (unfold ComponentDialog.endDialog in Hend; simpl in Hend;
         unfold bind at 1 in Hend; unfold bind at 1 in Hend;
         unfold ComponentDialog.onInner, ComponentDialog.createInnerDC,
           ComponentDialog.PERSISTED_DIALOG_STATE in Hend;
         rewrite Hs in Hend; discriminate Hend).
  rewrite (endDialog_cancel_base _ _ _ _ _ Hs) in Hend.
  destruct (endEach _ _ ctx) as [[[] ctx']|e]; [|discriminate].
  injection Hend as <- <-.
  split; [apply innerStack_setInnerStack|]. split; [reflexivity|].
  intros ctx2. rewrite (endDialog_cancel_base _ _ _ (Some []) ctx2).
  - simpl. by rewrite setInnerStack_twice.
  - apply lookup_insert_eq.
Qed.

Lemma endDialog_cancel_idempotent_witness :
  ComponentDialog.innerStack (ComponentDialog.setInnerStack [] Sample.componentFrame) = []
  /\ forall ctx2,
       ComponentDialog.endDialog 0 (ComponentDialog.base 0) Sample.twoChildren
         (ComponentDialog.setInnerStack [] Sample.componentFrame) cancelCalled ctx2
       = Ok (ComponentDialog.setInnerStack [] Sample.componentFrame, ctx2).
Proof.
  destruct (endDialog_cancel_is_idempotent 0 Sample.twoChildren Sample.componentFrame
              (Sample.turn Sample.hello)
              (ComponentDialog.setInnerStack [] Sample.componentFrame)
              (Sample.said "cancel first"
                 (Sample.said "cancel second" (Sample.turn Sample.hello)))
              eq_refl) as (Hempty & _ & Hagain).
  split; [exact Hempty|exact Hagain].
Defined.

(** X9.  On a frame that holds no inner state under 'dialogs', every
    method of a component that builds an inner context throws a TypeError,
    whatever the derived class overrides: [beginDialog], [consultDialog],
    [resumeDialog], [repromptDialog] and [endDialog] with reason cancelled. *)
Theorem component_frame_without_inner_state_throws fuel protected this instance :
  StateMap.get (state instance) "dialogs" = VUndefined ->
  let e := TypeError "Cannot read properties of undefined (reading 'dialogStack')" in
  (forall outerDC options rest ctx,
      ComponentDialog.beginDialog protected this outerDC options
        {| stack := rest ++ [instance]; context := ctx |} = Throw e)
  /\ (forall outerDC rest ctx,
         ComponentDialog.consultDialog protected this outerDC
           {| stack := rest ++ [instance]; context := ctx |} = Throw e)
  /\ (forall dc reason result rest ctx,
         ComponentDialog.resumeDialog fuel protected this dc reason result
           {| stack := rest ++ [instance]; context := ctx |} = Throw e)
  /\ (forall ctx, ComponentDialog.repromptDialog fuel protected this instance ctx = Throw e)
  /\ (forall ctx,
         ComponentDialog.endDialog fuel protected this instance cancelCalled ctx = Throw e).
Proof.
  intros Hs e.
  assert (Hchild : forall rest ctx,
    ComponentDialog.createChildContext {| stack := rest ++ [instance]; context := ctx |}
    = Throw e).
  { intros. unfold ComponentDialog.createChildContext.
    rewrite activeDialog_snoc. simpl. by rewrite createInnerDC_undefined. }
  assert (Hinner : forall A (m : M DialogContext A) ctx,
    ComponentDialog.onInner instance m ctx = Throw e).
  { intros. unfold ComponentDialog.onInner. by rewrite createInnerDC_undefined. }
  assert (Hre : forall ctx,
    ComponentDialog.repromptDialog fuel protected this instance ctx = Throw e).
  { intros. unfold ComponentDialog.repromptDialog. stop by apply Hinner. reflexivity. }
  repeat split.
  - intros. unfold ComponentDialog.beginDialog. stop by apply Hchild. reflexivity.
  - intros. unfold ComponentDialog.consultDialog. stop by apply Hchild. reflexivity.
  - intros. unfold ComponentDialog.resumeDialog.
    step by (unfold gets; by rewrite activeDialog_snoc).
    stop by (apply withContext_Throw, Hre). reflexivity.
  - exact Hre.
  - intros. unfold ComponentDialog.endDialog. simpl.
    erewrite bind_Throw; [reflexivity|].
    erewrite bind_Throw; [reflexivity|]. apply Hinner.
Qed.

Lemma component_frame_without_inner_state_witness :
  ComponentDialog.resumeDialog 0 (ComponentDialog.base 0) Sample.twoChildren
    (DC.new 0 ∅) endCalled VUndefined
    {| stack := [] ++ [Sample.fresh "profile"]; context := Sample.turn Sample.hello |}
  = Throw (TypeError "Cannot read properties of undefined (reading 'dialogStack')").
Proof.
  destruct (component_frame_without_inner_state_throws 0 (ComponentDialog.base 0)
              Sample.twoChildren (Sample.fresh "profile") eq_refl)
    as (_ & _ & Hresume & _).
  apply Hresume.
Defined.

(** X10.  Re-prompting a component whose active inner dialog is an
    activity prompt sends that prompt's retry prompt (or, none supplied, its
    initial prompt), leaves the frame as it is and then runs
    [onRepromptDialog]; [resumeDialog] of the component does the same and
    waits. *)
Theorem component_reprompt_reaches_the_inner_prompt
    fuel protected this instance below top po super validator recognize name ctx :
  state instance !! "dialogs" = Some (VDialogState (Some (below ++ [top]))) ->
  ComponentDialog.dialogs this !! id top
  = Some (ActivityPrompt.dialog super validator recognize name) ->
  state top !! "options" = Some (VOptions po) ->
  ComponentDialog.repromptDialog fuel protected this instance ctx
  = ComponentDialog.onRepromptDialog protected this instance
      (emit (retryOutputs po) ctx)
  /\ (forall dc reason result rest,
         ComponentDialog.resumeDialog fuel (ComponentDialog.base fuel) this
           dc reason result {| stack := rest ++ [instance]; context := ctx |}
         = Ok (EndOfTurn,
               {| stack := rest ++ [instance];
                  context := emit (retryOutputs po) ctx |})).
Proof.
  intros Hs Hd Ho.
  assert (Hinner :
    DC.repromptDialog (ComponentDialog.dialogs this)
      {| stack := default [] (Some (below ++ [top])); context := ctx |}
    = Ok (tt, {| stack := below ++ [top]; context := emit (retryOutputs po) ctx |})).
  { simpl. eapply DC_repromptDialog_top; [exact Hd|].
    simpl. by apply ActivityPrompt_repromptDialog. }
  assert (Hre : forall protected',
    ComponentDialog.repromptDialog fuel protected' this instance ctx
    = ComponentDialog.onRepromptDialog protected' this instance
        (emit (retryOutputs po) ctx)).
  { intros protected'.
    rewrite (ComponentDialog_repromptDialog _ _ _ _ _ _ _ Hs Hinner). simpl.
    by rewrite (setInnerStack_same _ _ Hs). }
  split; [apply Hre|].
  intros. unfold ComponentDialog.resumeDialog.
  step by (unfold gets; by rewrite activeDialog_snoc).
  step by (apply withContext_Ok; rewrite Hre; reflexivity).
  step by (unfold modify; by rewrite setActiveDialog_snoc).
  reflexivity.
Qed.

Lemma component_reprompt_witness :
  ComponentDialog.resumeDialog 0 (ComponentDialog.base 0) Sample.withPrompt
    (DC.new 0 ∅) endCalled VUndefined
    {| stack := [] ++ [Sample.promptInComponent]; context := Sample.turn Sample.hello |}
  = Ok (EndOfTurn,
        {| stack := [] ++ [Sample.promptInComponent];
           context := emit [promptOutput (PText "Please answer.")]
                        (Sample.turn Sample.hello) |}).
Proof.
  destruct (component_reprompt_reaches_the_inner_prompt 0 (ComponentDialog.base 0)
              Sample.withPrompt Sample.promptInComponent [] Sample.promptFrame
              Sample.askName Sample.plain Sample.isEvent ActivityPrompt.onRecognize
              "namePrompt" (Sample.turn Sample.hello) eq_refl eq_refl eq_refl)
    as [_ Hresume].
  apply Hresume.
Defined.

(** ** Computed identifiers *)

Lemma append_bracket_inj p q : String.append p "]" = String.append q "]" -> p = q.
Proof.
  revert q. induction p as [|c p IH]; intros [|c' q] H; simpl in H.
  - reflexivity.
  - injection H as <- H. by destruct q.
  - injection H as -> H. by destruct p.
  - injection H as -> H. f_equal. by apply IH.
Qed.

(** X11.  The identifier computed for a prompt or a component that was
    given none determines the binding path it was computed from, and a
    computed prompt identifier is never a computed component identifier. *)
Theorem computed_ids_are_distinct :
  (forall p q, ActivityPrompt.onComputeID p = ActivityPrompt.onComputeID q -> p = q)
  /\ (forall p q, ComponentDialog.onComputeID p = ComponentDialog.onComputeID q -> p = q)
  /\ (forall p q, ActivityPrompt.onComputeID p <> ComponentDialog.onComputeID q).
Proof.
  repeat split.
  - intros p q H. unfold ActivityPrompt.onComputeID in H. simpl in H.
    injection H as H. by apply append_bracket_inj.
  - intros p q H. unfold ComponentDialog.onComputeID in H. simpl in H.
    injection H as H. by apply append_bracket_inj.
  - intros p q H. discriminate H.
Qed.

Lemma computed_ids_witness :
  ActivityPrompt.onComputeID "dialog.name" = "activityPrompt[dialog.name]"
  /\ "dialog.name" = "dialog.name".
Proof.
  split; [reflexivity|].
  apply (proj1 computed_ids_are_distinct "dialog.name" "dialog.name"). reflexivity.
Defined.

(** ** A prompt driven through the dialog context *)

Lemma propagate_waiting dialogs self r s :
  status r = waiting -> DC.propagate dialogs self r s = Ok (r, s).
Proof. unfold DC.propagate. by intros ->. Qed.

(** X12.  Begun on an empty stack and answered on a later turn, a prompt
    leaves the stack as it found it: beginning pushes one frame, sends the
    initial prompt and waits; when the validator accepts the next activity,
    continuing pops that frame and completes with the recognized value. *)
Theorem prompt_begun_and_answered_restores_the_stack
    super validator recognize name dialogs n o ctx ctx' r ctx1 ctx2 ended ctx3 :
  let frame := begun o (Build_DialogInstance name ∅) in
  dialogs !! name = Some (ActivityPrompt.dialog super validator recognize name) ->
  recognize (VObject ∅) (VOptions o) ctx' = Ok (r, ctx1) ->
  validator {| ActivityPrompt.recognized := r;
               ActivityPrompt.validatorState := VObject ∅;
               ActivityPrompt.options := VOptions o |} ctx1 = Ok (true, ctx2) ->
  Dialog.endDialog super frame endCalled ctx2 = Ok (ended, ctx3) ->
  dc_beginDialog (DC.new (S n) dialogs) name (VOptions o)
    {| stack := []; context := ctx |}
  = Ok (EndOfTurn,
        {| stack := [frame];
           context := emit (initialOutputs o) (hintedContext o ctx) |})
  /\ dc_continueDialog (DC.new (S (S n)) dialogs)
       {| stack := [frame]; context := ctx' |}
     = Ok ({| status := complete; result := ActivityPrompt.value r |},
           {| stack := []; context := ctx3 |}).
Proof.
  intros frame Hd Hr Hv He. split.
  - simpl. unfold DC.beginDialog.
    step by (apply findDialog_Some, Hd).
    step by reflexivity.
    unfold DC.push. simpl stack. simpl context.
    erewrite bind_Ok.
    2:{ simpl. apply (beginDialog_run _ o [] (Build_DialogInstance name ∅) ctx). }
    by apply propagate_waiting.
  - change (dc_continueDialog (DC.new (S (S n)) dialogs))
      with (DC.continueDialog dialogs (DC.new (S n) dialogs)).
    change [frame] with ([] ++ [frame]).
    unfold DC.continueDialog.
    step by (unfold gets; by rewrite activeDialog_snoc).
    step by (apply findDialog_Some; exact Hd).
    erewrite bind_Ok.
    2:{ simpl Dialog.continueDialog.
        rewrite (continueDialog_validated validator recognize _ [] frame ctx' r ctx1
                   true ctx2).
        - change (dc_endDialog (DC.new (S n) dialogs))
            with (DC.endDialog dialogs (DC.new n dialogs)).
          apply (DC_endDialog_last_frame dialogs _ _ frame ctx2
                   (ActivityPrompt.dialog super validator recognize name) ended ctx3).
          + exact Hd.
          + exact He.
        - unfold frame. rewrite begun_state.
          rewrite (get_options _ _ (begun_options o _)). exact Hr.
        - unfold frame. rewrite begun_state.
          rewrite (get_options _ _ (begun_options o _)). exact Hv. }
    reflexivity.
Qed.

Lemma prompt_round_trip_witness :
  dc_continueDialog (DC.new 2 Sample.prompts)
    {| stack := [begun Sample.askName (Build_DialogInstance "namePrompt" ∅)];
       context := Sample.turn Sample.signedIn |}
  = Ok ({| status := complete; result := VActivity Sample.signedIn |},
        {| stack := []; context := Sample.turn Sample.signedIn |}).
Proof.
  apply (prompt_begun_and_answered_restores_the_stack Sample.plain Sample.isEvent
           ActivityPrompt.onRecognize "namePrompt" Sample.prompts 0 Sample.askName
           (Sample.turn Sample.hello) (Sample.turn Sample.signedIn)
           (Sample.recognizedActivity Sample.signedIn)
           (Sample.turn Sample.signedIn) (Sample.turn Sample.signedIn)
           (begun Sample.askName (Build_DialogInstance "namePrompt" ∅))
           (Sample.turn Sample.signedIn)); reflexivity.
Defined.

(** ** The action of a component's consultation *)

(** X13.  Running the action of the consultation that a component
    returned continues the inner stack: with the processor of the inner
    consultation when there is one, with [innerDC.continueDialog()]
    otherwise.  What the inner turn does to the inner stack is kept in the
    frame, the frames of the outer stack all stay, and the result of the
    inner turn is returned as it is; the component is not ended, not even
    when the inner turn completes. *)
Theorem component_consultation_action_continues_the_inner_stack
    fuel this outerDC s child s1 inner rest instance2 ctx2 :
  ComponentDialog.createChildContext s = Ok (Some child, s1) ->
  ComponentDialog.onInnerDC (Some child)
    (ComponentDialog.onConsultDialog (ComponentDialog.base fuel) this) s1
  = Ok (inner, {| stack := rest ++ [instance2]; context := ctx2 |}) ->
  exists c,
    ComponentDialog.consultDialog (ComponentDialog.base fuel) this outerDC s
    = Ok (c, {| stack := rest ++ [instance2]; context := ctx2 |})
    /\ processor c {| stack := rest ++ [instance2]; context := ctx2 |}
       = match (match inner with
                | Some i => processor i
                | None => dc_continueDialog (DC.new fuel (ComponentDialog.dialogs this))
                end)
               {| stack := ComponentDialog.innerStack instance2; context := ctx2 |} with
         | Ok (r, innerDC) =>
             Ok (r, {| stack := rest ++ [ComponentDialog.setInnerStack (stack innerDC)
                                           instance2];
                       context := context innerDC |})
         | Throw e => Throw e
         end.
Proof.
  intros Hc Hi. eexists. split.
  - unfold ComponentDialog.consultDialog.
    step by apply Hc. step by apply Hi. reflexivity.
  - simpl. unfold bind, ComponentDialog.captured, ComponentDialog.onInnerDC.
    rewrite activeDialog_snoc.
    unfold ComponentDialog.base_onContinueDialog, ComponentDialog.call.
    cbn [context].
    destruct inner as [i|].
    + destruct (processor i _) as [[r inner']|e]; [|reflexivity].
      by rewrite setActiveDialog_snoc.
    + destruct (dc_continueDialog _ _) as [[r inner']|e]; [|reflexivity].
      by rewrite setActiveDialog_snoc.
Qed.

Lemma component_consultation_action_witness :
  exists c,
    ComponentDialog.consultDialog (ComponentDialog.base 3) Sample.twoChildren
      (DC.new 0 ∅) Sample.inComponent
    = Ok (c, Sample.inComponent)
    /\ processor c Sample.inComponent
       = Ok ({| status := complete; result := VUndefined |},
             {| stack := [ComponentDialog.setInnerStack [] Sample.componentFrame];
                context := Sample.said "end first"
                             (Sample.said "end second" (Sample.turn Sample.hello)) |}).
Proof.
  destruct (component_consultation_action_continues_the_inner_stack 3
              Sample.twoChildren (DC.new 0 ∅) Sample.inComponent
              {| stack := ComponentDialog.innerStack Sample.componentFrame;
                 context := Sample.turn Sample.hello |}
              Sample.inComponent None [] Sample.componentFrame
              (Sample.turn Sample.hello) eq_refl eq_refl) as (c & Hc & Hp).
  exists c. split; [exact Hc|]. exact Hp.
Defined.
